(** * SimulatorDialog: the observer of the simulation engine

    A shallow embedding of [urh/controller/dialogs/SimulatorDialog.py].
    The dialog is Qt glue code around a [Simulator] object: its slots read
    the simulator's buffers, write widgets and call [start], [stop] and
    [cleanup].  Widgets are modelled by the part of their state the slots
    read or write, Python strings by their code points, and the calls that
    leave the dialog (to the simulator, the file system, message boxes) by
    a trace of calls in program order. *)

From Stdlib Require Import List ZArith NArith QArith Bool Lia String Ascii.
From Stdlib Require Import DecimalString.
Import ListNotations.

Set Implicit Arguments.
Open Scope Z_scope.

(** ** Python strings *)

Module PyStr.

(** A Python [str] is a sequence of Unicode code points. *)
Definition pystr := list N.

(** A string literal of the source (all literals of the file are ASCII). *)
Definition lit (s : string) : pystr :=
  map N_of_ascii (list_ascii_of_string s).

(** [str(n)] for an [int]: decimal digits, with a minus sign below zero. *)
Definition str_int (n : Z) : pystr :=
  lit (NilZero.string_of_int (Z.to_int n)).

(** The line feed, [chr(10)]. *)
Definition newline : pystr := [10%N].

(** [len(s) != 0], the truth value of a string. *)
Definition truthy (s : pystr) : bool :=
  match s with [] => false | _ :: _ => true end.

(** [sep.join(parts)]. *)
Fixpoint join (sep : pystr) (parts : list pystr) : pystr :=
  match parts with
  | [] => []
  | [p] => p
  | p :: rest => p ++ sep ++ join sep rest
  end.

(** The characters [str.isspace] holds for, which are the ones [str.rstrip]
    without argument removes: the Unicode white space and the four ASCII
    separators 0x1c..0x1f. *)
Definition isspace (c : N) : bool :=
  ((9 <=? c) && (c <=? 13) || (28 <=? c) && (c <=? 32)
   || (c =? 133) || (c =? 160) || (c =? 5760)
   || (8192 <=? c) && (c <=? 8202)
   || (c =? 8232) || (c =? 8233) || (c =? 8239) || (c =? 8287)
   || (c =? 12288))%N.

Fixpoint dropwhile (p : N -> bool) (s : pystr) : pystr :=
  match s with
  | [] => []
  | c :: rest => if p c then dropwhile p rest else s
  end.

(** [str.rstrip(s)]: [s] without its trailing white space. *)
Definition rstrip (s : pystr) : pystr :=
  rev (dropwhile isspace (rev s)).

(** *** [str.format] with positional fields

    The replacement fields of the one template of the file are explicit
    positions, [{0}] to [{3}].  The scanner is either in literal text, has
    just read an opening brace, or is inside the digits of a field. *)
Inductive fmt_state :=
| Text
| Opened
| Field (n : nat).

Definition digit_of (c : N) : option nat :=
  if ((48 <=? c) && (c <=? 57))%N then Some (N.to_nat (c - 48)) else None.

(** [None] stands for the exception Python raises: [ValueError] on a
    malformed template, [IndexError] on a position without argument.
    Brace escapes, automatic numbering and named fields do not occur in
    the template and are refused. *)
Fixpoint format_from (st : fmt_state) (tpl : pystr) (args : list pystr)
  : option pystr :=
  match tpl with
  | [] => match st with Text => Some [] | _ => None end
  | c :: rest =>
      match st with
      | Text =>
          if (c =? 123)%N then format_from Opened rest args
          else if (c =? 125)%N then None
          else option_map (cons c) (format_from Text rest args)
      | Opened =>
          match digit_of c with
          | Some d => format_from (Field d) rest args
          | None => None
          end
      | Field n =>
          if (c =? 125)%N then
            match nth_error args n with
            | Some a => option_map (app a) (format_from Text rest args)
            | None => None
            end
          else
            match digit_of c with
            | Some d => format_from (Field (10 * n + d)) rest args
            | None => None
            end
      end
  end.

Definition format (tpl : pystr) (args : list pystr) : option pystr :=
  format_from Text tpl args.

End PyStr.
Export PyStr.

(** ** The simulator as the dialog sees it *)

(** A participant, of which the dialog reads the short name. *)
Record Participant := { shortname : pystr }.

(** A message, of which the dialog reads the two text renderings. *)
Record Message := { plain_bits_str : pystr; plain_hex_str : pystr }.

(** One element of [simulator.transcript]:
    [(source, destination, msg, msg_index)]. *)
Definition TranscriptEntry : Type := Participant * Participant * Message * Z.

(** A program item; [index()] yields its position label. *)
Record SimulatorItem := { index : pystr }.

(** A complex sample, real and imaginary part. *)
Definition Sample : Type := Q * Q.

(** [rcv_device.data]: a numpy array of samples, or [None] where the
    backend holds no array. *)
Inductive DeviceData :=
| ndarray (samples : list Sample)
| none_data.

Record RcvDevice := {
  data : DeviceData;
  current_index : Z;
  resume_on_full_receive_buffer : bool
}.

Record VirtualDevice := { name : pystr }.

Record Sender := { device : VirtualDevice }.

(** The getter of [sender.device_name]. *)
Definition device_name (s : Sender) : pystr := name (device s).

Record Simulator := {
  is_simulating : bool;
  current_repeat : Z;
  current_item : option SimulatorItem;
  transcript : list TranscriptEntry;
  device_message_buffer : list pystr;
  log_messages : list pystr;
  rcv_device : RcvDevice;
  sender : Sender
}.

(** ** The dialog *)

(** A [QTextEdit] holding plain text.  Qt takes a text that looks like
    HTML as rich text, in [append] and [setText] alike, and [toPlainText]
    then returns what the markup renders to; the texts written here, the
    lines of the transcript and the device and log messages, are taken to
    carry no markup. *)
Module QTextEdit.

Definition t := pystr.

Definition clear (_ : t) : t := [].

Definition setText (text : pystr) (_ : t) : t := text.

(** [append] starts a new paragraph, except in an empty document, whose
    only paragraph takes the text. *)
Definition append (text : pystr) (doc : t) : t :=
  match doc with
  | [] => text
  | _ :: _ => doc ++ newline ++ text
  end.

Definition toPlainText (doc : t) : pystr := doc.

End QTextEdit.

(** The widgets of [Ui_DialogSimulator] the slots below touch. *)
Record Ui := mkUi {
  textEditDevices : QTextEdit.t;
  textEditSimulation : QTextEdit.t;
  textEditTranscript : QTextEdit.t;
  radioButtonTranscriptBit : bool;       (* isChecked *)
  lblCurrentRepeatValue : pystr;         (* text *)
  lblCurrentItemValue : pystr;           (* text *)
  btnToggleLog : bool;                   (* isEnabled *)
  btnLogAll : bool;                      (* isEnabled *)
  btnLogNone : bool;                     (* isEnabled *)
  btnStartStop : pystr * pystr;          (* icon theme name, text *)
  tabWidgetSimulatorSettings : list bool;(* isTabEnabled, by tab *)
  checkBoxCaptureFullRX : bool * bool;   (* isChecked, isEnabled *)
  graphicsViewPreview : bool             (* isEnabled *)
}.

(** An item of the simulator scene with the [logging_active] flag of its
    model item. *)
Record SceneItem := {
  logging_active : bool;
  isSelected : bool;
  isSelectable : bool
}.

(** The scene manager of the RX preview. *)
Record SceneManager := {
  plot_data : list Q;
  data_array : list Q;
  sm_end : Z;
  sm_text_items : list pystr
}.

(** A device settings widget: its device combo box, by the current text
    and the texts of the entries (which are distinct device names), and
    the device it configures. *)
Record DeviceSettingsWidget := {
  cbDevice : pystr;
  cbDevice_items : list pystr;
  widget_device : VirtualDevice
}.

Definition pystr_eq_dec : forall a b : pystr, {a = b} + {a <> b} :=
  list_eq_dec N.eq_dec.

(** [cbDevice.setCurrentText(text)] on the combo box, which is not
    editable: the entry with this text becomes the current one, and a
    text that is no entry is ignored. *)
Definition cbDevice_setCurrentText (text : pystr) (wd : DeviceSettingsWidget)
  : DeviceSettingsWidget :=
  if in_dec pystr_eq_dec text (cbDevice_items wd)
  then {| cbDevice := text; cbDevice_items := cbDevice_items wd;
          widget_device := widget_device wd |}
  else wd.

Arguments pystr_eq_dec : simpl never.
Arguments cbDevice_setCurrentText : simpl never.

Record Dialog := mkDialog {
  ui : Ui;
  current_transcript_index : Z;
  update_interval : Z;
  timer : option Z;                      (* the interval while active *)
  simulator_scene : list SceneItem;
  scene_manager : SceneManager;
  device_settings_tx_widget : DeviceSettingsWidget
}.

(** The calls that leave the dialog, in program order. *)
Inductive Call :=
| emit_editing_finished_signals (widget : string)
| emit_device_parameters_changed (widget : string)
| emit_sniff_parameters_changed
| Simulator_start
| Simulator_stop
| Simulator_cleanup
| time_sleep (seconds : Q)
| super_closeEvent
| scene_manager_call (method : string)
| graphicsViewPreview_update
| file_write (path content : pystr)
| ndarray_tofile (samples : list Sample) (path : pystr)
| QMessageBox_critical (title text : pystr)
| Errors_generic_error (title text : pystr).

Record World := mkWorld {
  dlg : Dialog;
  sim : Simulator;
  trace : list Call
}.

(** A Python value as far as the slots tell values apart: a [str], an
    [int], or something else. *)
Inductive pyobj :=
| py_str (s : pystr)
| py_int (n : Z)
| py_other.

(** An instance of [Exception]: its class, its [args] and its text
    [str(e)].  The two are different things: an [OSError] of [open] has
    the errno, an [int], as [args[0]], and an exception raised without
    argument has no [args[0]] at all. *)
Record exn := {
  exc_class : string;
  exc_args : list pyobj;
  exc_str : pystr
}.

(** ** Slots as state transformers that may raise *)

Inductive result (A : Type) :=
| Ok (a : A)
| Raised (e : exn).
Arguments Raised {A} e.

Definition M (A : Type) : Type := World -> result A * World.

Definition ret {A} (a : A) : M A := fun w => (Ok a, w).

Definition bind {A B} (c : M A) (k : A -> M B) : M B :=
  fun w => match c w with
           | (Ok a, w') => k a w'
           | (Raised e, w') => (Raised e, w')
           end.

Definition raise {A} (e : exn) : M A := fun w => (Raised e, w).

(** [try: body except Exception as e: handler(e)]. *)
Definition try_except {A} (body : M A) (handler : exn -> M A) : M A :=
  fun w => match body w with
           | (Ok a, w') => (Ok a, w')
           | (Raised e, w') => handler e w'
           end.

Definition gets {A} (f : World -> A) : M A := fun w => (Ok (f w), w).

Definition modify (f : World -> World) : M unit := fun w => (Ok tt, f w).

Declare Scope slot_scope.
Delimit Scope slot_scope with slot.
Notation "x <- c ;; k" := (bind c (fun x => k))
  (at level 100, c at next level, right associativity) : slot_scope.
Notation "c ;; k" := (bind c (fun _ => k))
  (at level 100, right associativity) : slot_scope.
Open Scope slot_scope.

(** [for x in xs: body(x)]. *)
Fixpoint for_each {A} (xs : list A) (body : A -> M unit) : M unit :=
  match xs with
  | [] => ret tt
  | x :: rest => body x ;; for_each rest body
  end.

(** The world a slot leaves behind, whether it returned or raised. *)
Definition exec {A} (c : M A) (w : World) : World := snd (c w).

Definition call (c : Call) : M unit :=
  modify (fun w => mkWorld (dlg w) (sim w) (trace w ++ [c])).

Definition modify_dlg (f : Dialog -> Dialog) : M unit :=
  modify (fun w => mkWorld (f (dlg w)) (sim w) (trace w)).

Definition modify_sim (f : Simulator -> Simulator) : M unit :=
  modify (fun w => mkWorld (dlg w) (f (sim w)) (trace w)).

Definition modify_ui (f : Ui -> Ui) : M unit :=
  modify_dlg (fun d => mkDialog (f (ui d)) (current_transcript_index d)
                         (update_interval d) (timer d) (simulator_scene d)
                         (scene_manager d) (device_settings_tx_widget d)).

Definition gets_ui {A} (f : Ui -> A) : M A := gets (fun w => f (ui (dlg w))).

Definition gets_sim {A} (f : Simulator -> A) : M A := gets (fun w => f (sim w)).

(** *** Field updates *)

Definition with_textEditDevices (f : QTextEdit.t -> QTextEdit.t) (u : Ui) : Ui :=
  let '(mkUi a b c d e g h i j k l m n) := u in mkUi (f a) b c d e g h i j k l m n.

Definition with_textEditSimulation (f : QTextEdit.t -> QTextEdit.t) (u : Ui) : Ui :=
  let '(mkUi a b c d e g h i j k l m n) := u in mkUi a (f b) c d e g h i j k l m n.

Definition with_textEditTranscript (f : QTextEdit.t -> QTextEdit.t) (u : Ui) : Ui :=
  let '(mkUi a b c d e g h i j k l m n) := u in mkUi a b (f c) d e g h i j k l m n.

Definition set_lblCurrentRepeatValue (v : pystr) (u : Ui) : Ui :=
  let '(mkUi a b c d _ g h i j k l m n) := u in mkUi a b c d v g h i j k l m n.

Definition set_lblCurrentItemValue (v : pystr) (u : Ui) : Ui :=
  let '(mkUi a b c d e _ h i j k l m n) := u in mkUi a b c d e v h i j k l m n.

Definition set_btnToggleLog (v : bool) (u : Ui) : Ui :=
  let '(mkUi a b c d e g _ i j k l m n) := u in mkUi a b c d e g v i j k l m n.

Definition set_btnLogAll (v : bool) (u : Ui) : Ui :=
  let '(mkUi a b c d e g h _ j k l m n) := u in mkUi a b c d e g h v j k l m n.

Definition set_btnLogNone (v : bool) (u : Ui) : Ui :=
  let '(mkUi a b c d e g h i _ k l m n) := u in mkUi a b c d e g h i v k l m n.

Definition set_btnStartStop (v : pystr * pystr) (u : Ui) : Ui :=
  let '(mkUi a b c d e g h i j _ l m n) := u in mkUi a b c d e g h i j v l m n.

Definition with_tabWidgetSimulatorSettings (f : list bool -> list bool) (u : Ui) : Ui :=
  let '(mkUi a b c d e g h i j k l m n) := u in mkUi a b c d e g h i j k (f l) m n.

Definition with_checkBoxCaptureFullRX (f : bool * bool -> bool * bool) (u : Ui) : Ui :=
  let '(mkUi a b c d e g h i j k l m n) := u in mkUi a b c d e g h i j k l (f m) n.

Definition set_graphicsViewPreview (v : bool) (u : Ui) : Ui :=
  let '(mkUi a b c d e g h i j k l m _) := u in mkUi a b c d e g h i j k l m v.

Definition set_current_transcript_index (v : Z) (d : Dialog) : Dialog :=
  mkDialog (ui d) v (update_interval d) (timer d) (simulator_scene d)
    (scene_manager d) (device_settings_tx_widget d).

Definition set_timer (v : option Z) (d : Dialog) : Dialog :=
  mkDialog (ui d) (current_transcript_index d) (update_interval d) v
    (simulator_scene d) (scene_manager d) (device_settings_tx_widget d).

Definition with_simulator_scene (f : list SceneItem -> list SceneItem) (d : Dialog) : Dialog :=
  mkDialog (ui d) (current_transcript_index d) (update_interval d) (timer d)
    (f (simulator_scene d)) (scene_manager d) (device_settings_tx_widget d).

Definition with_scene_manager (f : SceneManager -> SceneManager) (d : Dialog) : Dialog :=
  mkDialog (ui d) (current_transcript_index d) (update_interval d) (timer d)
    (simulator_scene d) (f (scene_manager d)) (device_settings_tx_widget d).

Definition with_device_settings_tx_widget
  (f : DeviceSettingsWidget -> DeviceSettingsWidget) (d : Dialog) : Dialog :=
  mkDialog (ui d) (current_transcript_index d) (update_interval d) (timer d)
    (simulator_scene d) (scene_manager d) (f (device_settings_tx_widget d)).

Definition set_device_message_buffer (v : list pystr) (s : Simulator) : Simulator :=
  Build_Simulator (is_simulating s) (current_repeat s) (current_item s)
    (transcript s) v (log_messages s) (rcv_device s) (sender s).

Definition set_log_messages (v : list pystr) (s : Simulator) : Simulator :=
  Build_Simulator (is_simulating s) (current_repeat s) (current_item s)
    (transcript s) (device_message_buffer s) v (rcv_device s) (sender s).

Definition with_rcv_device (f : RcvDevice -> RcvDevice) (s : Simulator) : Simulator :=
  Build_Simulator (is_simulating s) (current_repeat s) (current_item s)
    (transcript s) (device_message_buffer s) (log_messages s)
    (f (rcv_device s)) (sender s).

Definition set_sender (v : Sender) (s : Simulator) : Simulator :=
  Build_Simulator (is_simulating s) (current_repeat s) (current_item s)
    (transcript s) (device_message_buffer s) (log_messages s)
    (rcv_device s) v.

(** ** Python sequences *)

(** [xs[k:]], with a negative [k] counted from the end. *)
Definition slice_from {A} (k : Z) (xs : list A) : list A :=
  if k <? 0 then skipn (Z.to_nat (Z.of_nat (List.length xs) + k)) xs
  else skipn (Z.to_nat k) xs.

(** [xs[:k]], with a negative [k] counted from the end. *)
Definition slice_to {A} (k : Z) (xs : list A) : list A :=
  if k <? 0 then firstn (Z.to_nat (Z.of_nat (List.length xs) + k)) xs
  else firstn (Z.to_nat k) xs.

(** [len(xs)]. *)
Definition len {A} (xs : list A) : Z := Z.of_nat (List.length xs).

(** [filter(None, strings)]: the strings that are not empty. *)
Definition filter_None (xs : list pystr) : list pystr := filter truthy xs.

(** ** The collaborators of the dialog *)

(** Modelled from the spec: [Simulator.device_messages], which is the
    spec's [drainDeviceMessages() -> [string]]; it hands over the buffered
    device lines and leaves the buffer empty. *)
Definition Simulator_device_messages : M (list pystr) :=
  msgs <- gets_sim device_message_buffer ;;
  modify_sim (set_device_message_buffer []) ;;
  ret msgs.

(** Modelled from the spec: [Simulator.read_log_messages], which is the
    spec's [drainLogMessages() -> [string]]. *)
Definition Simulator_read_log_messages : M (list pystr) :=
  msgs <- gets_sim log_messages ;;
  modify_sim (set_log_messages []) ;;
  ret msgs.

(** [simulator_scene.selectable_items()] and
    [simulator_scene.selectedItems()], read off the items' flags. *)
Definition selectable_items (scene : list SceneItem) : list SceneItem :=
  filter isSelectable scene.

Definition selectedItems (scene : list SceneItem) : list SceneItem :=
  filter isSelected scene.

Definition set_logging_active (v : bool) (it : SceneItem) : SceneItem :=
  {| logging_active := v; isSelected := isSelected it;
     isSelectable := isSelectable it |}.

(** Modelled from the spec: [SimulatorScene.log_all_items], the spec's
    [logAll()] and [logNone()] of the program model; it writes the flag of
    every item. *)
Definition log_all_items (v : bool) (scene : list SceneItem) : list SceneItem :=
  map (set_logging_active v) scene.

(** Modelled from the spec: [SimulatorScene.log_toggle_selected_items], the
    spec's [toggleLogging(selected)]; it negates the flag of every selected
    item. *)
Definition log_toggle_selected_items (scene : list SceneItem) : list SceneItem :=
  map (fun it => if isSelected it
                 then set_logging_active (negb (logging_active it)) it
                 else it) scene.

(** [QTabWidget.setTabEnabled(i, enabled)]; a position without tab is
    ignored. *)
Fixpoint setTabEnabled (i : nat) (enabled : bool) (tabs : list bool) : list bool :=
  match tabs, i with
  | [], _ => []
  | _ :: rest, O => enabled :: rest
  | t :: rest, S j => t :: setTabEnabled j enabled rest
  end.

(** [str.format] as a step of a slot. *)
Definition str_format (tpl : pystr) (args : list pystr) : M pystr :=
  match format tpl args with
  | Some s => ret s
  | None => raise {| exc_class := "ValueError"; exc_args := []; exc_str := [] |}
  end.

(** ** class SimulatorDialog *)

Definition TRANSCRIPT_FORMAT : pystr := lit "{0} ({1}->{2}): {3}".

Definition update_buttons : M unit :=
  selectable <- gets (fun w => selectable_items (simulator_scene (dlg w))) ;;
  let all_items_selected := forallb logging_active selectable in
  let any_item_selected := existsb logging_active selectable in
  selected <- gets (fun w => selectedItems (simulator_scene (dlg w))) ;;
  modify_ui (set_btnToggleLog (negb (len selected =? 0))) ;;
  modify_ui (set_btnLogAll (negb all_items_selected)) ;;
  modify_ui (set_btnLogNone any_item_selected).

(** The body of the two transcript loops: one line from one entry. *)
Definition transcript_line (entry : TranscriptEntry) : M pystr :=
  let '(source, destination, msg, msg_index) := entry in
  bit <- gets_ui radioButtonTranscriptBit ;;
  let data := if bit then plain_bits_str msg else plain_hex_str msg in
  str_format TRANSCRIPT_FORMAT
    [str_int msg_index; shortname source; shortname destination; data].

Definition update_view : M unit :=
  device_msgs <- Simulator_device_messages ;;
  for_each (filter_None (map rstrip device_msgs))
    (fun device_message =>
       modify_ui (with_textEditDevices (QTextEdit.append device_message))) ;;
  log_msgs <- Simulator_read_log_messages ;;
  for_each (filter_None (map rstrip log_msgs))
    (fun log_msg =>
       modify_ui (with_textEditSimulation (QTextEdit.append log_msg))) ;;
  entries <- gets (fun w => slice_from (current_transcript_index (dlg w))
                              (transcript (sim w))) ;;
  for_each entries
    (fun entry =>
       line <- transcript_line entry ;;
       modify_ui (with_textEditTranscript (QTextEdit.append line))) ;;
  n <- gets_sim (fun s => len (transcript s)) ;;
  modify_dlg (set_current_transcript_index n) ;;
  running <- gets_sim is_simulating ;;
  repeat_text <- (if running
                  then (r <- gets_sim current_repeat ;; ret (str_int (r + 1)))
                  else ret (lit "-")) ;;
  modify_ui (set_lblCurrentRepeatValue repeat_text) ;;
  running <- gets_sim is_simulating ;;
  item_text <- (if running
                then (it <- gets_sim current_item ;;
                      match it with
                      | Some item => ret (index item)
                      | None => raise {| exc_class := "AttributeError";
                                         exc_args := [py_str (lit "'NoneType' object has no attribute 'index'")];
                                         exc_str := lit "'NoneType' object has no attribute 'index'" |}
                      end)
                else ret (lit "-")) ;;
  modify_ui (set_lblCurrentItemValue item_text).

Definition update_rx_graphics_view : M unit :=
  enabled <- gets_ui graphicsViewPreview ;;
  if negb enabled then ret tt
  else
    idx <- gets_sim (fun s => current_index (rcv_device s)) ;;
    modify_dlg (with_scene_manager (fun m =>
      {| plot_data := plot_data m; data_array := data_array m;
         sm_end := idx; sm_text_items := sm_text_items m |})) ;;
    call (scene_manager_call "init_scene") ;;
    call (scene_manager_call "show_full_scene") ;;
    call graphicsViewPreview_update.

Definition reset : M unit :=
  modify_ui (with_textEditDevices QTextEdit.clear) ;;
  modify_ui (with_textEditSimulation QTextEdit.clear) ;;
  modify_ui (with_textEditTranscript QTextEdit.clear) ;;
  modify_dlg (set_current_transcript_index 0) ;;
  modify_ui (set_lblCurrentRepeatValue (lit "-")) ;;
  modify_ui (set_lblCurrentItemValue (lit "-")).

Definition emit_editing_finished_signals_all : M unit :=
  call (emit_editing_finished_signals "device_settings_rx_widget") ;;
  call (emit_editing_finished_signals "device_settings_tx_widget") ;;
  call (emit_editing_finished_signals "sniff_settings_widget").

(** [for x in xs: acc.append(f(x))], the list a loop builds. *)
Fixpoint collect {A B} (xs : list A) (f : A -> M B) : M (list B) :=
  match xs with
  | [] => ret []
  | x :: rest => y <- f x ;; ys <- collect rest f ;; ret (y :: ys)
  end.

Definition update_transcript_view : M unit :=
  entries <- gets_sim transcript ;;
  lines <- collect entries transcript_line ;;
  modify_ui (with_textEditTranscript (QTextEdit.setText (join newline lines))).

Definition closeEvent : M unit :=
  emit_editing_finished_signals_all ;;
  call (emit_device_parameters_changed "device_settings_rx_widget") ;;
  call (emit_device_parameters_changed "device_settings_tx_widget") ;;
  call emit_sniff_parameters_changed ;;
  modify_dlg (set_timer None) ;;
  call Simulator_stop ;;
  call (time_sleep (1 # 10)) ;;
  call Simulator_cleanup ;;
  call super_closeEvent.

Definition on_simulation_started : M unit :=
  for_each [0; 1; 2]%nat
    (fun i => modify_ui (with_tabWidgetSimulatorSettings (setTabEnabled i false))) ;;
  modify_ui (with_checkBoxCaptureFullRX (fun c => (fst c, false))) ;;
  reset ;;
  interval <- gets (fun w => update_interval (dlg w)) ;;
  modify_dlg (set_timer (Some interval)) ;;
  modify_ui (set_btnStartStop (lit "media-playback-stop", lit "Stop")) ;;
  rx_data <- gets_sim (fun s => data (rcv_device s)) ;;
  modify_dlg (with_scene_manager (fun m =>
    {| plot_data := plot_data m; data_array := data_array m;
       sm_end := sm_end m; sm_text_items := [] |})) ;;
  capture_full <- gets_ui (fun u => fst (checkBoxCaptureFullRX u)) ;;
  match rx_data with
  | ndarray samples =>
      modify_ui (set_graphicsViewPreview true) ;;
      modify_dlg (with_scene_manager (fun m =>
        {| plot_data := if capture_full then map fst samples else plot_data m;
           data_array := if capture_full then data_array m else map fst samples;
           sm_end := sm_end m; sm_text_items := sm_text_items m |}))
  | none_data =>
      modify_ui (set_graphicsViewPreview false) ;;
      modify_dlg (with_scene_manager (fun m =>
        {| plot_data := if capture_full then [] else plot_data m;
           data_array := if capture_full then data_array m else [];
           sm_end := sm_end m;
           sm_text_items := sm_text_items m
                            ++ [lit "Could not generate RX preview."] |}))
  end.

Definition on_simulation_stopped : M unit :=
  for_each [0; 1; 2]%nat
    (fun i => modify_ui (with_tabWidgetSimulatorSettings (setTabEnabled i true))) ;;
  modify_dlg (set_timer None) ;;
  update_view ;;
  modify_ui (set_btnStartStop (lit "media-playback-start", lit "Start")) ;;
  modify_ui (with_checkBoxCaptureFullRX (fun c => (fst c, true))).

Definition on_btn_log_all_clicked : M unit :=
  modify_dlg (with_simulator_scene (log_all_items true)).

Definition on_btn_log_none_clicked : M unit :=
  modify_dlg (with_simulator_scene (log_all_items false)).

Definition on_btn_toggle_clicked : M unit :=
  modify_dlg (with_simulator_scene log_toggle_selected_items).

(** [e.args[0]] of an exception has none when [args] is empty. *)
Definition IndexError_args : exn :=
  {| exc_class := "IndexError";
     exc_args := [py_str (lit "tuple index out of range")];
     exc_str := lit "tuple index out of range" |}.

(** [QMessageBox.critical] takes a [str] for its text. *)
Definition TypeError_text : exn :=
  {| exc_class := "TypeError";
     exc_args := [py_str (lit "argument 3 has unexpected type")];
     exc_str := lit "argument 3 has unexpected type" |}.

(** The [except] clause of the two save slots,
    [QMessageBox.critical(self, title, e.args[0])]: the message box is
    shown when the first argument of the exception is a [str]; otherwise
    the clause itself raises. *)
Definition show_save_error (title : pystr) (e : exn) : M unit :=
  match exc_args e with
  | [] => raise IndexError_args
  | py_str text :: _ => call (QMessageBox_critical title text)
  | _ :: _ => raise TypeError_text
  end.

(** [file_path] is the first component of what [QFileDialog.getSaveFileName]
    returned and [io_error] the exception, if any, that opening or writing
    the file raises. *)
Definition on_btn_save_transcript_clicked (file_path : pystr) (io_error : option exn)
  : M unit :=
  if negb (truthy file_path) then ret tt
  else
    text <- gets_ui (fun u => QTextEdit.toPlainText (textEditTranscript u)) ;;
    try_except
      (match io_error with
       | Some e => raise e
       | None => call (file_write file_path text)
       end)
      (show_save_error (lit "Error saving transcript")).

Definition on_btn_start_stop_clicked : M unit :=
  running <- gets_sim is_simulating ;;
  if running then call Simulator_stop
  else
    call (emit_editing_finished_signals "device_settings_rx_widget") ;;
    call (emit_editing_finished_signals "device_settings_tx_widget") ;;
    call (emit_editing_finished_signals "sniff_settings_widget") ;;
    modify_sim (with_rcv_device (fun d =>
      {| data := data d; current_index := 0;
         resume_on_full_receive_buffer := resume_on_full_receive_buffer d |})) ;;
    capture_full <- gets_ui (fun u => fst (checkBoxCaptureFullRX u)) ;;
    modify_sim (with_rcv_device (fun d =>
      {| data := data d; current_index := current_index d;
         resume_on_full_receive_buffer := negb capture_full |})) ;;
    call Simulator_start.

Definition on_timer_timeout : M unit :=
  update_view ;;
  update_rx_graphics_view.

Definition on_radio_button_transcript_hex_clicked : M unit :=
  update_transcript_view.

Definition on_radio_button_transcript_bit_clicked : M unit :=
  update_transcript_view.

(** [filename] is what [FileOperator.get_save_file_name] returned, [None]
    or a string. *)
Definition on_btn_save_rx_clicked (filename : option pystr) : M unit :=
  rx_device <- gets_sim rcv_device ;;
  match data rx_device with
  | ndarray samples =>
      match filename with
      | Some path =>
          if truthy path
          then call (ndarray_tofile (slice_to (current_index rx_device) samples) path)
          else ret tt
      | None => ret tt
      end
  | none_data => ret tt
  end.

Section TxDevice.

(** The setter of [sender.device_name], which lives in [EndlessSender]: it
    either yields the sender with the named device or raises. *)
Variable Sender_set_device_name : pystr -> Sender -> result Sender.

(** The slot.  When [setCurrentText] in the [except] clause changes the
    selection, the settings widget emits [selected_device_changed] again
    and the slot runs once more, inside the call and before the error is
    reported: [reentered] is that run. *)
Definition tx_device_changed (reentered : M unit) : M unit :=
  old_name <- gets_sim (fun s => device_name (sender s)) ;;
  try_except
    (dev_name <- gets (fun w => cbDevice (device_settings_tx_widget (dlg w))) ;;
     snd <- gets_sim sender ;;
     match Sender_set_device_name dev_name snd with
     | Ok snd' => modify_sim (set_sender snd')
     | Raised e => raise e
     end ;;
     dev <- gets_sim (fun s => device (sender s)) ;;
     modify_dlg (with_device_settings_tx_widget (fun wd =>
       {| cbDevice := cbDevice wd; cbDevice_items := cbDevice_items wd;
          widget_device := dev |})))
    (fun e =>
       shown <- gets (fun w => cbDevice (device_settings_tx_widget (dlg w))) ;;
       modify_dlg (with_device_settings_tx_widget
                     (cbDevice_setCurrentText old_name)) ;;
       selected <- gets (fun w => cbDevice (device_settings_tx_widget (dlg w))) ;;
       (if pystr_eq_dec selected shown then ret tt else reentered) ;;
       call (Errors_generic_error (lit "Error occurred") (exc_str e))).

(** The slot with its runs from within, [depth] deep. *)
Fixpoint on_selected_tx_device_changed_nested (depth : nat) : M unit :=
  tx_device_changed
    (match depth with
     | O => ret tt
     | S d => on_selected_tx_device_changed_nested d
     end).

(** One run from within is all there can be: it finds the combo box on
    the sender's device name, so that its own [setCurrentText] changes
    nothing (see [on_selected_tx_device_changed_depth]). *)
Definition on_selected_tx_device_changed : M unit :=
  on_selected_tx_device_changed_nested 1.

End TxDevice.

Definition set_radioButtonTranscriptBit (v : bool) (u : Ui) : Ui :=
  let '(mkUi a b c _ e g h i j k l m n) := u in mkUi a b c v e g h i j k l m n.

(** [__init__]: the fields of a new dialog around the widgets [ui0] that
    [setupUi] built, the scene of the program and the simulator.  The bit
    radio button is unchecked when the settings select the hex view. *)
Definition SimulatorDialog_init (ui0 : Ui) (scene : list SceneItem)
  (tx_widget : DeviceSettingsWidget) (default_view : Z) (s : Simulator) : World :=
  let d := mkDialog ui0 0 25 None scene
             {| plot_data := []; data_array := []; sm_end := 0;
                sm_text_items := [] |}
             tx_widget in
  exec (update_buttons ;;
        if default_view =? 1
        then modify_ui (set_radioButtonTranscriptBit false)
        else ret tt)
       (mkWorld d s []).

(** ** The dialog in the event loop *)

(** What reaches the dialog: the signals connected in [create_connects],
    the close event, and, between two of them, the simulator thread going
    on ([simulator_ran], with the simulator's state afterwards). *)
Inductive Event :=
| simulation_started
| simulation_stopped
| timer_timeout
| btnStartStop_clicked
| btnLogAll_clicked
| btnLogNone_clicked
| btnToggleLog_clicked
| radioButtonTranscriptBit_clicked
| radioButtonTranscriptHex_clicked
| btnSaveTranscript_clicked (file_path : pystr) (io_error : option exn)
| btnSaveRX_clicked (filename : option pystr)
| selection_changed (scene : list SceneItem)
| close_event
| simulator_ran (s : Simulator).

(** The slot an event runs.  A click on a radio button checks it before
    [clicked] is emitted; the scene's log methods end in [items_updated],
    which is connected to [update_buttons], as is [selectionChanged]. *)
Definition handle (e : Event) : M unit :=
  match e with
  | simulation_started => on_simulation_started
  | simulation_stopped => on_simulation_stopped
  | timer_timeout => on_timer_timeout
  | btnStartStop_clicked => on_btn_start_stop_clicked
  | btnLogAll_clicked => on_btn_log_all_clicked ;; update_buttons
  | btnLogNone_clicked => on_btn_log_none_clicked ;; update_buttons
  | btnToggleLog_clicked => on_btn_toggle_clicked ;; update_buttons
  | radioButtonTranscriptBit_clicked =>
      modify_ui (set_radioButtonTranscriptBit true) ;;
      on_radio_button_transcript_bit_clicked
  | radioButtonTranscriptHex_clicked =>
      modify_ui (set_radioButtonTranscriptBit false) ;;
      on_radio_button_transcript_hex_clicked
  | btnSaveTranscript_clicked file_path io_error =>
      on_btn_save_transcript_clicked file_path io_error
  | btnSaveRX_clicked filename => on_btn_save_rx_clicked filename
  | selection_changed scene =>
      modify_dlg (with_simulator_scene (fun _ => scene)) ;; update_buttons
  | close_event => closeEvent
  | simulator_ran s => modify_sim (fun _ => s)
  end.

(** The event loop: one slot after the other, each on the world the last
    one left.  The simulator's thread moves between two slots only, as
    [simulator_ran]; a refresh during which it moves is
    [update_view_interleaved] below. *)
Definition run (events : list Event) (w : World) : World :=
  fold_left (fun w e => exec (handle e) w) events w.

(** ** The spec's wording of the properties *)

Module Spec.

(** ["{sequence_index} ({source}->{destination}): {data}"], with the bit
    string for [{data}] when [bit] holds and the hex string otherwise. *)
Definition transcript_line (bit : bool) (entry : TranscriptEntry) : pystr :=
  let '(source, destination, msg, sequence_index) := entry in
  str_int sequence_index ++ lit " (" ++ shortname source ++ lit "->"
    ++ shortname destination ++ lit "): "
    ++ (if bit then plain_bits_str msg else plain_hex_str msg).

(** The text of a view that shows [lines], one per line. *)
Definition text_of_lines (lines : list pystr) : pystr := join newline lines.

(** A line that is white space throughout, the empty line included. *)
Definition blank (line : pystr) : bool := forallb isspace line.

(** The timer as the notifications prescribe it: running at 25 ms from
    the start of a simulation to its end or to the closing of the dialog. *)
Fixpoint timer_after (events : list Event) (before : option Z) : option Z :=
  match events with
  | [] => before
  | simulation_started :: rest => timer_after rest (Some 25)
  | simulation_stopped :: rest => timer_after rest None
  | close_event :: rest => timer_after rest None
  | _ :: rest => timer_after rest before
  end.

(** Modelled from the spec: the execution state of the engine,
    [Idle | Running | Stopping | Stopped]. *)
Inductive ExecutionState := Idle | Running | Stopping | Stopped.

End Spec.

(** ** The slots, computed *)

Definition put_ui (u : Ui) (w : World) : World :=
  mkWorld (mkDialog u (current_transcript_index (dlg w))
             (update_interval (dlg w)) (timer (dlg w))
             (simulator_scene (dlg w)) (scene_manager (dlg w))
             (device_settings_tx_widget (dlg w)))
          (sim w) (trace w).

Definition append_all (lines : list pystr) (doc : QTextEdit.t) : QTextEdit.t :=
  fold_left (fun doc x => QTextEdit.append x doc) lines doc.

(** The widgets after [update_view]. *)
Definition update_view_ui (w : World) : Ui :=
  let u := ui (dlg w) in
  let s := sim w in
  mkUi
    (append_all (filter_None (map rstrip (device_message_buffer s)))
       (textEditDevices u))
    (append_all (filter_None (map rstrip (log_messages s)))
       (textEditSimulation u))
    (append_all
       (map (Spec.transcript_line (radioButtonTranscriptBit u))
          (slice_from (current_transcript_index (dlg w)) (transcript s)))
       (textEditTranscript u))
    (radioButtonTranscriptBit u)
    (if is_simulating s then str_int (current_repeat s + 1) else lit "-")
    (if is_simulating s
     then match current_item s with
          | Some item => index item
          | None => lblCurrentItemValue u
          end
     else lit "-")
    (btnToggleLog u) (btnLogAll u) (btnLogNone u) (btnStartStop u)
    (tabWidgetSimulatorSettings u) (checkBoxCaptureFullRX u)
    (graphicsViewPreview u).

Definition update_view_world (w : World) : World :=
  mkWorld
    (mkDialog (update_view_ui w) (len (transcript (sim w)))
       (update_interval (dlg w)) (timer (dlg w)) (simulator_scene (dlg w))
       (scene_manager (dlg w)) (device_settings_tx_widget (dlg w)))
    (set_log_messages [] (set_device_message_buffer [] (sim w)))
    (trace w).

(** What [update_view] returns: it raises when a simulation runs without
    a current item. *)
Definition AttributeError_index : exn :=
  {| exc_class := "AttributeError";
     exc_args := [py_str (lit "'NoneType' object has no attribute 'index'")];
     exc_str := lit "'NoneType' object has no attribute 'index'" |}.

Definition update_view_result (w : World) : result unit :=
  if is_simulating (sim w)
  then match current_item (sim w) with
       | Some _ => Ok tt
       | None => Raised AttributeError_index
       end
  else Ok tt.

(** The two fields of the polling timer. *)
Definition clock (w : World) : Z * option Z :=
  (update_interval (dlg w), timer (dlg w)).


(** What the transcript view depends on: its text, the cursor, the radio
    button and the simulator's transcript. *)
Definition view_state (w : World)
  : QTextEdit.t * Z * bool * list TranscriptEntry :=
  (textEditTranscript (ui (dlg w)), current_transcript_index (dlg w),
   radioButtonTranscriptBit (ui (dlg w)), transcript (sim w)).

(** The events that leave the transcript view to [update_view]: all but
    the start of a run, which clears the view, and the clicks on the radio
    buttons, which rebuild it. *)
Definition leaves_view_to_update_view (e : Event) : bool :=
  match e with
  | simulation_started
  | radioButtonTranscriptBit_clicked
  | radioButtonTranscriptHex_clicked => false
  | _ => true
  end.

(** The simulator only ever appends to its transcript, which holds [tr]
    before the events. *)
Fixpoint append_only (tr : list TranscriptEntry) (events : list Event) : Prop :=
  match events with
  | [] => True
  | simulator_ran s :: rest =>
      (exists new, transcript s = tr ++ new) /\ append_only (transcript s) rest
  | _ :: rest => append_only tr rest
  end.

(** The transcript view shows, with the rendering [bit] selects, the
    entries before the cursor, each on a line of its own, and nothing
    else. *)
Definition shows_entries_before_cursor (bit : bool) (w : World) : Prop :=
  radioButtonTranscriptBit (ui (dlg w)) = bit
  /\ 0 <= current_transcript_index (dlg w) <= len (transcript (sim w))
  /\ textEditTranscript (ui (dlg w))
     = Spec.text_of_lines
         (map (Spec.transcript_line bit)
            (slice_to (current_transcript_index (dlg w)) (transcript (sim w)))).

(** ** A small run, for the examples *)

Module Demo.

Definition alice : Participant := {| shortname := lit "A" |}.
Definition bob : Participant := {| shortname := lit "B" |}.

Definition ping : Message :=
  {| plain_bits_str := lit "10101010"; plain_hex_str := lit "aa" |}.
Definition pong : Message :=
  {| plain_bits_str := lit "10111011"; plain_hex_str := lit "bb" |}.

Definition entry0 : TranscriptEntry := (alice, bob, ping, 0).
Definition entry1 : TranscriptEntry := (bob, alice, pong, 1).

Definition rx : RcvDevice :=
  {| data := ndarray [(1 # 2, 0 # 1); (1 # 4, 0 # 1); (0 # 1, 1 # 8)];
     current_index := 2;
     resume_on_full_receive_buffer := true |}.

Definition usrp : VirtualDevice := {| name := lit "USRP" |}.

(** The simulator at rest, and in a run after zero, one and two messages. *)
Definition simulator (running : bool) (tr : list TranscriptEntry)
  (logs : list pystr) : Simulator :=
  {| is_simulating := running;
     current_repeat := 0;
     current_item := if running then Some {| index := lit "1" |} else None;
     transcript := tr;
     device_message_buffer := [];
     log_messages := logs;
     rcv_device := rx;
     sender := {| device := usrp |} |}.

Definition widgets : Ui :=
  {| textEditDevices := [];
     textEditSimulation := [];
     textEditTranscript := [];
     radioButtonTranscriptBit := true;
     lblCurrentRepeatValue := lit "-";
     lblCurrentItemValue := lit "-";
     btnToggleLog := false;
     btnLogAll := false;
     btnLogNone := false;
     btnStartStop := (lit "media-playback-start", lit "Start");
     tabWidgetSimulatorSettings := [true; true; true];
     checkBoxCaptureFullRX := (false, true);
     graphicsViewPreview := true |}.

Definition scene : list SceneItem :=
  [ {| logging_active := true; isSelected := false; isSelectable := true |};
    {| logging_active := false; isSelected := true; isSelectable := true |} ].

(** The settings widget of the sender with [selected] chosen in its
    combo box. *)
Definition tx_widget (selected : pystr) : DeviceSettingsWidget :=
  {| cbDevice := selected;
     cbDevice_items := [lit "USRP"; lit "HackRF"; lit "RTL-SDR"];
     widget_device := usrp |}.

(** The dialog as [__init__] leaves it, with the HackRF chosen in the
    combo box of the TX settings. *)
Definition world : World :=
  SimulatorDialog_init widgets scene
    (tx_widget (lit "HackRF")) 0
    (simulator false [] []).

(** A run: the simulation starts, sends and receives, and the timer polls
    in between. *)
Definition events : list Event :=
  [ simulator_ran (simulator true [entry0] [lit "Sending A->B  "; lit "   "]);
    timer_timeout;
    simulator_ran (simulator true [entry0; entry1] []);
    timer_timeout;
    simulator_ran (simulator false [entry0; entry1] []);
    simulation_stopped ].

(** A setter of [sender.device_name] for which the HackRF cannot be
    opened. *)
Definition set_device_name (value : pystr) (snd : Sender) : result Sender :=
  if list_eq_dec N.eq_dec value (lit "HackRF")
  then Raised {| exc_class := "Exception";
                 exc_args := [py_str (lit "device not found")];
                 exc_str := lit "device not found" |}
  else Ok {| device := {| name := value |} |}.

End Demo.

(** The calls a slot makes on the world [w], in order. *)
Definition calls {A} (c : M A) (w : World) : list Call :=
  skipn (List.length (trace w)) (trace (exec c w)).

(** What a refresh of the view writes: the three text views, the cursor
    and the two labels. *)
Definition refreshed (w : World)
  : QTextEdit.t * QTextEdit.t * QTextEdit.t * Z * pystr * pystr :=
  (textEditDevices (ui (dlg w)), textEditSimulation (ui (dlg w)),
   textEditTranscript (ui (dlg w)), current_transcript_index (dlg w),
   lblCurrentRepeatValue (ui (dlg w)), lblCurrentItemValue (ui (dlg w))).

(** ** More of the dialog *)


(** The three settings tabs after [setTabEnabled(i, enabled)] for [i] in
    [range(3)]. *)
Definition set_three_tabs (enabled : bool) (tabs : list bool) : list bool :=
  setTabEnabled 2 enabled (setTabEnabled 1 enabled (setTabEnabled 0 enabled tabs)).

(** The state of the three log buttons, with the scene they are computed
    from. *)
Definition button_state (w : World) : bool * bool * bool * list SceneItem :=
  (btnToggleLog (ui (dlg w)), btnLogAll (ui (dlg w)), btnLogNone (ui (dlg w)),
   simulator_scene (dlg w)).

(** The buttons as [update_buttons] sets them for a scene. *)
Definition buttons_of_scene (scene : list SceneItem)
  : bool * bool * bool * list SceneItem :=
  (negb (len (selectedItems scene) =? 0),
   negb (forallb logging_active (selectable_items scene)),
   existsb logging_active (selectable_items scene),
   scene).

(** The calls the slot of an event makes on the world [w]. *)
Definition event_calls (e : Event) (w : World) : list Call :=
  match e with
  | timer_timeout =>
      if graphicsViewPreview (ui (dlg w))
         && match update_view_result w with Ok _ => true | Raised _ => false end
      then [scene_manager_call "init_scene";
            scene_manager_call "show_full_scene";
            graphicsViewPreview_update]
      else []
  | btnStartStop_clicked =>
      if is_simulating (sim w)
      then [Simulator_stop]
      else [emit_editing_finished_signals "device_settings_rx_widget";
            emit_editing_finished_signals "device_settings_tx_widget";
            emit_editing_finished_signals "sniff_settings_widget";
            Simulator_start]
  | btnSaveTranscript_clicked file_path io_error =>
      match file_path, io_error with
      | [], _ => []
      | _ :: _, None => [file_write file_path (textEditTranscript (ui (dlg w)))]
      | _ :: _, Some e =>
          match exc_args e with
          | py_str text :: _ =>
              [QMessageBox_critical (lit "Error saving transcript") text]
          | _ => []
          end
      end
  | btnSaveRX_clicked filename =>
      match data (rcv_device (sim w)), filename with
      | ndarray samples, Some (c :: path) =>
          [ndarray_tofile (slice_to (current_index (rcv_device (sim w))) samples)
             (c :: path)]
      | _, _ => []
      end
  | close_event =>
      [emit_editing_finished_signals "device_settings_rx_widget";
       emit_editing_finished_signals "device_settings_tx_widget";
       emit_editing_finished_signals "sniff_settings_widget";
       emit_device_parameters_changed "device_settings_rx_widget";
       emit_device_parameters_changed "device_settings_tx_widget";
       emit_sniff_parameters_changed;
       Simulator_stop;
       time_sleep (1 # 10);
       Simulator_cleanup;
       super_closeEvent]
  | _ => []
  end.

Definition is_stop (c : Call) : bool :=
  match c with Simulator_stop => true | _ => false end.

Definition is_start (c : Call) : bool :=
  match c with Simulator_start => true | _ => false end.

Definition is_cleanup (c : Call) : bool :=
  match c with Simulator_cleanup => true | _ => false end.

Definition is_grace_sleep (c : Call) : bool :=
  match c with
  | time_sleep (Qmake 1 10) => true
  | _ => false
  end.

(** Scanning a trace for [stop(); sleep(0.1); cleanup()]: how much of the
    two calls that must precede a [cleanup()] the scan has just seen. *)
Definition seen_after (seen : nat) (c : Call) : nat :=
  if is_stop c then 1%nat
  else if is_grace_sleep c && Nat.eqb seen 1 then 2%nat
  else 0%nat.

(** Every [cleanup()] of the trace comes right after a [stop()] and a
    sleep of 0.1 s. *)
Fixpoint cleanup_guarded (seen : nat) (calls : list Call) : bool :=
  match calls with
  | [] => true
  | c :: rest =>
      if is_cleanup c
      then Nat.eqb seen 2 && cleanup_guarded 0 rest
      else cleanup_guarded (seen_after seen c) rest
  end.

(** The events that are clicks on the start/stop button with the
    simulator not running: walking the events, as many as [start()] is
    called. *)
Fixpoint start_clicks (events : list Event) (w : World) : nat :=
  match events with
  | [] => 0
  | e :: rest =>
      (match e with
       | btnStartStop_clicked => if is_simulating (sim w) then 0 else 1
       | _ => 0
       end + start_clicks rest (exec (handle e) w))%nat
  end.

(** What the scan has seen at the end of the calls. *)
Fixpoint seen_through (seen : nat) (calls : list Call) : nat :=
  match calls with
  | [] => seen
  | c :: rest =>
      seen_through (if is_cleanup c then 0%nat else seen_after seen c) rest
  end.

(** ** The simulator's thread *)

(** The simulator runs in a thread of its own and appends to its
    transcript while the slots of the dialog run.  [update_view] reads
    [simulator.transcript] twice: for the slice its loop iterates over,
    and after the loop for the length it sets the cursor to.  This is
    [update_view] with what the simulator's thread does to the simulator
    between the two reads; [update_view] is the refresh during which the
    thread does nothing.  For the transcript view and the cursor, what the
    thread appends before the first read or after the second is as if
    appended before or after the slot. *)
Definition update_view_interleaved (simulator_thread : Simulator -> Simulator)
  : M unit :=
  device_msgs <- Simulator_device_messages ;;
  for_each (filter_None (map rstrip device_msgs))
    (fun device_message =>
       modify_ui (with_textEditDevices (QTextEdit.append device_message))) ;;
  log_msgs <- Simulator_read_log_messages ;;
  for_each (filter_None (map rstrip log_msgs))
    (fun log_msg =>
       modify_ui (with_textEditSimulation (QTextEdit.append log_msg))) ;;
  entries <- gets (fun w => slice_from (current_transcript_index (dlg w))
                              (transcript (sim w))) ;;
  for_each entries
    (fun entry =>
       line <- transcript_line entry ;;
       modify_ui (with_textEditTranscript (QTextEdit.append line))) ;;
  modify_sim simulator_thread ;;
  n <- gets_sim (fun s => len (transcript s)) ;;
  modify_dlg (set_current_transcript_index n) ;;
  running <- gets_sim is_simulating ;;
  repeat_text <- (if running
                  then (r <- gets_sim current_repeat ;; ret (str_int (r + 1)))
                  else ret (lit "-")) ;;
  modify_ui (set_lblCurrentRepeatValue repeat_text) ;;
  running <- gets_sim is_simulating ;;
  item_text <- (if running
                then (it <- gets_sim current_item ;;
                      match it with
                      | Some item => ret (index item)
                      | None => raise AttributeError_index
                      end)
                else ret (lit "-")) ;;
  modify_ui (set_lblCurrentItemValue item_text).

(** The simulator with its buffers of device and log messages read
    out. *)
Definition drained (s : Simulator) : Simulator :=
  set_log_messages [] (set_device_message_buffer [] s).

(** The world after [update_view_interleaved]: the three views get their
    lines from the simulator as it was when the refresh began, the cursor
    and the labels are read from the simulator as its thread left it. *)
Definition update_view_interleaved_world
  (simulator_thread : Simulator -> Simulator) (w : World) : World :=
  let u := update_view_ui w in
  let s := simulator_thread (drained (sim w)) in
  mkWorld
    (mkDialog
       (mkUi (textEditDevices u) (textEditSimulation u) (textEditTranscript u)
          (radioButtonTranscriptBit u)
          (if is_simulating s then str_int (current_repeat s + 1) else lit "-")
          (if is_simulating s
           then match current_item s with
                | Some item => index item
                | None => lblCurrentItemValue (ui (dlg w))
                end
           else lit "-")
          (btnToggleLog u) (btnLogAll u) (btnLogNone u) (btnStartStop u)
          (tabWidgetSimulatorSettings u) (checkBoxCaptureFullRX u)
          (graphicsViewPreview u))
       (len (transcript s))
       (update_interval (dlg w)) (timer (dlg w)) (simulator_scene (dlg w))
       (scene_manager (dlg w)) (device_settings_tx_widget (dlg w)))
    s (trace w).

(** The simulator's thread sending or receiving messages: it appends
    their entries to the transcript. *)
Definition Simulator_append (new : list TranscriptEntry) (s : Simulator)
  : Simulator :=
  Build_Simulator (is_simulating s) (current_repeat s) (current_item s)
    (transcript s ++ new) (device_message_buffer s) (log_messages s)
    (rcv_device s) (sender s).

(** A step of the dialog with the simulator's thread in view: a slot
    during which the thread does nothing, or a tick of the timer during
    whose refresh the thread moves. *)
Inductive Step :=
  | slot (e : Event)
  | timer_timeout_during (simulator_thread : Simulator -> Simulator).

Definition handle_step (st : Step) : M unit :=
  match st with
  | slot e => handle e
  | timer_timeout_during simulator_thread =>
      update_view_interleaved simulator_thread ;;
      update_rx_graphics_view
  end.

Definition run_steps (steps : list Step) (w : World) : World :=
  fold_left (fun w st => exec (handle_step st) w) steps w.

(** The steps that leave the transcript view to the refreshes. *)
Definition step_leaves_view_to_update_view (st : Step) : bool :=
  match st with
  | slot e => leaves_view_to_update_view e
  | timer_timeout_during _ => true
  end.

(** The transcript of [w'] is the one of [w] with entries appended. *)
Definition transcript_grows (w w' : World) : Prop :=
  exists new, transcript (sim w') = transcript (sim w) ++ new.

(** Over the steps, from the world [w] on, the simulator only ever
    appends to its transcript. *)
Fixpoint append_only_steps (steps : list Step) (w : World) : Prop :=
  match steps with
  | [] => True
  | st :: rest =>
      transcript_grows w (exec (handle_step st) w)
      /\ append_only_steps rest (exec (handle_step st) w)
  end.

(** Over the steps, from the world [w] on, the simulator's thread leaves
    the transcript alone while a refresh runs. *)
Fixpoint refreshes_undisturbed (steps : list Step) (w : World) : Prop :=
  match steps with
  | [] => True
  | st :: rest =>
      match st with
      | slot _ => True
      | timer_timeout_during _ =>
          transcript (sim (exec (handle_step st) w)) = transcript (sim w)
      end
      /\ refreshes_undisturbed rest (exec (handle_step st) w)
  end.

(** [xs] is [ys] with some of its elements left out. *)
Inductive subseq {A : Type} : list A -> list A -> Prop :=
  | subseq_nil : subseq [] []
  | subseq_skip (xs ys : list A) (y : A) : subseq xs ys -> subseq xs (y :: ys)
  | subseq_keep (xs ys : list A) (x : A) :
      subseq xs ys -> subseq (x :: xs) (x :: ys).

(** The transcript view shows, with the rendering [bit] selects, entries
    from before the cursor in their order, none of them twice, and nothing
    else. *)
Definition shows_entries_once (bit : bool) (w : World) : Prop :=
  radioButtonTranscriptBit (ui (dlg w)) = bit
  /\ 0 <= current_transcript_index (dlg w) <= len (transcript (sim w))
  /\ exists shown,
       subseq shown
         (slice_to (current_transcript_index (dlg w)) (transcript (sim w)))
       /\ textEditTranscript (ui (dlg w))
          = Spec.text_of_lines (map (Spec.transcript_line bit) shown).
(** ** Examples *)

Example str_int_12 : str_int 12 = lit "12".
Proof. reflexivity. Qed.

Example str_int_0 : str_int 0 = lit "0".
Proof. reflexivity. Qed.

Example str_int_neg : str_int (-7) = lit "-7".
Proof. reflexivity. Qed.

Example rstrip_ex : rstrip (lit " ab  ") = lit " ab".
Proof. reflexivity. Qed.

Example format_ex :
  format (lit "{1}-{0}!") [lit "a"; lit "bc"] = Some (lit "bc-a!").
Proof. reflexivity. Qed.

(** ** Strings *)

Lemma format_TRANSCRIPT_FORMAT (a b c d : pystr) :
  format TRANSCRIPT_FORMAT [a; b; c; d]
  = Some (a ++ lit " (" ++ b ++ lit "->" ++ c ++ lit "): " ++ d).
Proof.
  transitivity (Some (a ++ lit " (" ++ b ++ lit "->" ++ c ++ lit "): " ++ (d ++ []))).
  - reflexivity.
  - now rewrite app_nil_r.
Qed.

Lemma join_snoc (sep : pystr) (xs : list pystr) (x y : pystr) :
  join sep ((x :: xs) ++ [y]) = join sep (x :: xs) ++ sep ++ y.
Proof.
  revert x. induction xs as [|z xs IH]; intros x.
  - reflexivity.
  - change (join sep ((x :: z :: xs) ++ [y]))
      with (x ++ sep ++ join sep ((z :: xs) ++ [y])).
    rewrite IH. cbn [join]. now rewrite <- !app_assoc.
Qed.

Lemma join_nonempty (sep : pystr) (xs : list pystr) :
  Forall (fun x => x <> []) xs -> xs <> [] -> join sep xs <> [].
Proof.
  intros Hall Hne. destruct xs as [|x xs]; [congruence|].
  inversion Hall as [|? ? Hx _]; subst.
  destruct x as [|c x]; [congruence|].
  destruct xs; cbn; discriminate.
Qed.

(** Appending lines one by one to a view that shows lines gives the view
    of all the lines. *)
Lemma append_lines (shown new : list pystr) :
  Forall (fun x => x <> []) shown -> Forall (fun x => x <> []) new ->
  fold_left (fun doc line => QTextEdit.append line doc) new
    (Spec.text_of_lines shown)
  = Spec.text_of_lines (shown ++ new).
Proof.
  revert shown. induction new as [|y new IH]; intros shown Hs Hn.
  - now rewrite app_nil_r.
  - inversion Hn as [|? ? Hy Hn']; subst. cbn [fold_left].
    replace (shown ++ y :: new) with ((shown ++ [y]) ++ new)
      by now rewrite <- app_assoc.
    rewrite <- IH; auto.
    + f_equal. unfold Spec.text_of_lines, QTextEdit.append.
      destruct shown as [|x shown]; [reflexivity|].
      pose proof (@join_nonempty newline (x :: shown) Hs ltac:(discriminate)) as Hj.
      rewrite join_snoc.
      destruct (join newline (x :: shown)); [congruence|reflexivity].
    + apply Forall_app; split; auto.
Qed.

Lemma dropwhile_nil_iff (p : N -> bool) (s : pystr) :
  dropwhile p s = [] <-> forallb p s = true.
Proof.
  induction s as [|c s IH]; cbn; [tauto|].
  destruct (p c); cbn; [exact IH|]. split; discriminate.
Qed.

Lemma forallb_rev {A} (p : A -> bool) (xs : list A) :
  forallb p (rev xs) = forallb p xs.
Proof.
  induction xs as [|x xs IH]; [reflexivity|].
  cbn. rewrite forallb_app, IH. cbn. rewrite andb_true_r. apply andb_comm.
Qed.

(** [rstrip] leaves nothing exactly of the blank lines. *)
Lemma truthy_rstrip (s : pystr) :
  truthy (rstrip s) = negb (Spec.blank s).
Proof.
  unfold rstrip, Spec.blank.
  destruct (dropwhile isspace (rev s)) as [|c r] eqn:E.
  - apply dropwhile_nil_iff in E. rewrite forallb_rev in E. now rewrite E.
  - assert (H : forallb isspace s <> true).
    { intro H. rewrite <- forallb_rev in H. apply dropwhile_nil_iff in H.
      congruence. }
    destruct (forallb isspace s); [congruence|].
    cbn. destruct (rev r ++ [c]) eqn:E'; [|reflexivity].
    now destruct (rev r).
Qed.

Lemma filter_None_rstrip (msgs : list pystr) :
  filter_None (map rstrip msgs)
  = map rstrip (filter (fun m => negb (Spec.blank m)) msgs).
Proof.
  unfold filter_None.
  induction msgs as [|m msgs IH]; [reflexivity|].
  cbn [map filter]. rewrite truthy_rstrip.
  destruct (Spec.blank m); cbn [negb map]; now rewrite IH.
Qed.

Lemma transcript_line_nonempty (bit : bool) (entry : TranscriptEntry) :
  Spec.transcript_line bit entry <> [].
Proof.
  destruct entry as [[[s d] m] i]. unfold Spec.transcript_line.
  intro H. apply app_eq_nil in H. destruct H as [_ H]. discriminate H.
Qed.

Lemma put_ui_put_ui (u u' : Ui) (w : World) :
  put_ui u (put_ui u' w) = put_ui u w.
Proof. reflexivity. Qed.

Lemma for_each_modify_ui {A} (g : A -> Ui -> Ui) (xs : list A) (w : World) :
  for_each xs (fun x => modify_ui (g x)) w
  = (Ok tt, put_ui (fold_left (fun u x => g x u) xs (ui (dlg w))) w).
Proof.
  revert w. induction xs as [|x xs IH]; intros w.
  - destruct w as [[] ? ?]. reflexivity.
  - cbn [for_each fold_left]. unfold bind at 1.
    cbn [modify_ui modify_dlg modify]. rewrite IH. reflexivity.
Qed.

Lemma fold_left_with_textEditDevices (lines : list pystr) (u : Ui) :
  fold_left (fun u x => with_textEditDevices (QTextEdit.append x) u) lines u
  = with_textEditDevices
      (fun doc => fold_left (fun doc x => QTextEdit.append x doc) lines doc) u.
Proof.
  revert u. induction lines as [|x lines IH]; intros u.
  - now destruct u.
  - cbn [fold_left]. rewrite IH. now destruct u.
Qed.

Lemma fold_left_with_textEditSimulation (lines : list pystr) (u : Ui) :
  fold_left (fun u x => with_textEditSimulation (QTextEdit.append x) u) lines u
  = with_textEditSimulation
      (fun doc => fold_left (fun doc x => QTextEdit.append x doc) lines doc) u.
Proof.
  revert u. induction lines as [|x lines IH]; intros u.
  - now destruct u.
  - cbn [fold_left]. rewrite IH. now destruct u.
Qed.

Lemma transcript_line_spec (entry : TranscriptEntry) (w : World) :
  transcript_line entry w
  = (Ok (Spec.transcript_line (radioButtonTranscriptBit (ui (dlg w))) entry), w).
Proof.
  destruct entry as [[[s d] m] i].
  unfold transcript_line, bind, gets_ui, gets, str_format.
  rewrite format_TRANSCRIPT_FORMAT. reflexivity.
Qed.

Lemma for_each_transcript (entries : list TranscriptEntry) (w : World) :
  for_each entries
    (fun entry =>
       line <- transcript_line entry ;;
       modify_ui (with_textEditTranscript (QTextEdit.append line))) w
  = (Ok tt,
     put_ui (with_textEditTranscript
               (fun doc =>
                  fold_left (fun doc x => QTextEdit.append x doc)
                    (map (Spec.transcript_line
                            (radioButtonTranscriptBit (ui (dlg w)))) entries)
                    doc)
               (ui (dlg w))) w).
Proof.
  revert w. induction entries as [|e entries IH]; intros w.
  - destruct w as [[[] ? ? ? ? ? ?] ? ?]. reflexivity.
  - cbn [for_each]. unfold bind at 1. unfold bind at 1.
    rewrite transcript_line_spec.
    cbn [modify_ui modify_dlg modify]. rewrite IH.
    destruct w as [[[] ? ? ? ? ? ?] ? ?]. reflexivity.
Qed.

Lemma collect_transcript_line (entries : list TranscriptEntry) (w : World) :
  collect entries transcript_line w
  = (Ok (map (Spec.transcript_line (radioButtonTranscriptBit (ui (dlg w))))
           entries), w).
Proof.
  induction entries as [|e entries IH]; [reflexivity|].
  cbn [collect map]. unfold bind at 1. rewrite transcript_line_spec.
  unfold bind at 1. rewrite IH. reflexivity.
Qed.

Arguments lit : simpl never.
Arguments str_int : simpl never.

Lemma update_view_run (w : World) :
  update_view w = (update_view_result w, update_view_world w).
Proof.
  destruct w as [[u idx iv t sc sm tx] s tr].
  unfold update_view.
  unfold bind at 1. unfold Simulator_device_messages.
  unfold bind at 1. cbn.
  unfold bind at 1. rewrite for_each_modify_ui, fold_left_with_textEditDevices.
  unfold bind at 1. unfold Simulator_read_log_messages.
  unfold bind at 1. cbn.
  unfold bind at 1. rewrite for_each_modify_ui, fold_left_with_textEditSimulation.
  unfold bind at 1. cbn.
  unfold bind at 1. rewrite for_each_transcript.
  unfold bind at 1. cbn.
  destruct u, s as [run rep item trs dm lm rd sd]. cbn.
  destruct run; cbn; [destruct item; cbn|]; reflexivity.
Qed.

Lemma update_view_exec (w : World) :
  exec update_view w = update_view_world w.
Proof. unfold exec. now rewrite update_view_run. Qed.

(** One statement of a slot: the first [bind] on the world at hand. *)
Ltac step := unfold bind at 1; cbv beta iota.

Lemma update_transcript_view_run (w : World) :
  update_transcript_view w
  = (Ok tt,
     put_ui (with_textEditTranscript
               (QTextEdit.setText
                  (Spec.text_of_lines
                     (map (Spec.transcript_line
                             (radioButtonTranscriptBit (ui (dlg w))))
                        (transcript (sim w)))))
               (ui (dlg w))) w).
Proof.
  unfold update_transcript_view.
  unfold bind at 1. cbn [gets_sim gets].
  unfold bind at 1. rewrite collect_transcript_line.
  destruct w as [[[] ? ? ? ? ? ?] ? ?]. reflexivity.
Qed.

(** Every slot leaves [update_interval] alone and moves the timer as the
    notifications prescribe. *)
Lemma handle_clock (e : Event) (w : World) :
  update_interval (dlg w) = 25 ->
  clock (exec (handle e) w) = (25, Spec.timer_after [e] (timer (dlg w))).
Proof.
  intros Hiv. unfold exec.
  destruct e; cbn [handle Spec.timer_after].
  - destruct w as [[[] idx iv t sc sm tx] s tr]. cbn in Hiv. subst iv.
    unfold on_simulation_started. cbn.
    destruct (data (rcv_device s)); reflexivity.
  - unfold on_simulation_stopped.
    step. rewrite for_each_modify_ui. cbv beta iota.
    step. cbn [modify_dlg modify].
    step. rewrite update_view_run.
    destruct w as [[[] idx iv t sc sm tx] s tr]. cbn in Hiv. subst iv.
    unfold update_view_result. cbn.
    destruct (is_simulating s); cbn; [destruct (current_item s); cbn|]; reflexivity.
  - unfold on_timer_timeout.
    step. rewrite update_view_run.
    destruct w as [[[] idx iv t sc sm tx] s tr]. cbn in Hiv. subst iv.
    unfold update_view_result, update_rx_graphics_view. cbn.
    destruct (is_simulating s); cbn; [destruct (current_item s); cbn|];
      try reflexivity; destruct graphicsViewPreview0; reflexivity.
  - destruct w as [[[] idx iv t sc sm tx] s tr]. cbn in Hiv. subst iv.
    unfold on_btn_start_stop_clicked. cbn.
    destruct (is_simulating s); reflexivity.
  - destruct w as [[[] idx iv t sc sm tx] s tr]. cbn in Hiv. subst iv. reflexivity.
  - destruct w as [[[] idx iv t sc sm tx] s tr]. cbn in Hiv. subst iv. reflexivity.
  - destruct w as [[[] idx iv t sc sm tx] s tr]. cbn in Hiv. subst iv. reflexivity.
  - unfold on_radio_button_transcript_bit_clicked.
    step. cbn [modify_ui modify_dlg modify].
    rewrite update_transcript_view_run.
    destruct w as [[[] idx iv t sc sm tx] s tr]. cbn in Hiv. subst iv. reflexivity.
  - unfold on_radio_button_transcript_hex_clicked.
    step. cbn [modify_ui modify_dlg modify].
    rewrite update_transcript_view_run.
    destruct w as [[[] idx iv t sc sm tx] s tr]. cbn in Hiv. subst iv. reflexivity.
  - destruct w as [[[] idx iv t sc sm tx] s tr]. cbn in Hiv. subst iv.
    unfold on_btn_save_transcript_clicked.
    destruct file_path; [reflexivity|].
    destruct io_error as [[cls [|[] args] str]|]; reflexivity.
  - destruct w as [[[] idx iv t sc sm tx] s tr]. cbn in Hiv. subst iv.
    unfold on_btn_save_rx_clicked. cbn.
    destruct (data (rcv_device s)); [|reflexivity].
    destruct filename as [[|]|]; reflexivity.
  - destruct w as [[[] idx iv t sc sm tx] s tr]. cbn in Hiv. subst iv. reflexivity.
  - destruct w as [[[] idx iv t sc sm tx] s tr]. cbn in Hiv. subst iv. reflexivity.
  - destruct w as [[[] idx iv t sc sm tx] s0 tr]. cbn in Hiv. subst iv. reflexivity.
Qed.

Arguments clock : simpl never.
Arguments view_state : simpl never.

(** What each slot does to the transcript view. *)
Lemma handle_view_state (e : Event) (w : World) :
  view_state (exec (handle e) w)
  = match e with
    | timer_timeout | simulation_stopped => view_state (update_view_world w)
    | simulator_ran s =>
        (textEditTranscript (ui (dlg w)), current_transcript_index (dlg w),
         radioButtonTranscriptBit (ui (dlg w)), transcript s)
    | simulation_started =>
        ([], 0, radioButtonTranscriptBit (ui (dlg w)), transcript (sim w))
    | radioButtonTranscriptBit_clicked =>
        (Spec.text_of_lines (map (Spec.transcript_line true) (transcript (sim w))),
         current_transcript_index (dlg w), true, transcript (sim w))
    | radioButtonTranscriptHex_clicked =>
        (Spec.text_of_lines (map (Spec.transcript_line false) (transcript (sim w))),
         current_transcript_index (dlg w), false, transcript (sim w))
    | _ => view_state w
    end.
Proof.
  unfold exec.
  destruct e; cbn [handle].
  - destruct w as [[[] idx iv t sc sm tx] s tr].
    unfold on_simulation_started. cbn.
    destruct (data (rcv_device s)); reflexivity.
  - unfold on_simulation_stopped.
    step. rewrite for_each_modify_ui. cbv beta iota.
    step. cbn [modify_dlg modify].
    step. rewrite update_view_run.
    destruct w as [[[] idx iv t sc sm tx] s tr].
    unfold update_view_result. cbn.
    destruct (is_simulating s); cbn; [destruct (current_item s); cbn|]; reflexivity.
  - unfold on_timer_timeout.
    step. rewrite update_view_run.
    destruct w as [[[] idx iv t sc sm tx] s tr].
    unfold update_view_result, update_rx_graphics_view. cbn.
    destruct (is_simulating s); cbn; [destruct (current_item s); cbn|];
      try reflexivity; destruct graphicsViewPreview0; reflexivity.
  - destruct w as [[[] idx iv t sc sm tx] s tr].
    unfold on_btn_start_stop_clicked. cbn.
    destruct (is_simulating s); reflexivity.
  - destruct w as [[[] idx iv t sc sm tx] s tr]. reflexivity.
  - destruct w as [[[] idx iv t sc sm tx] s tr]. reflexivity.
  - destruct w as [[[] idx iv t sc sm tx] s tr]. reflexivity.
  - unfold on_radio_button_transcript_bit_clicked.
    step. cbn [modify_ui modify_dlg modify].
    rewrite update_transcript_view_run.
    destruct w as [[[] idx iv t sc sm tx] s tr]. reflexivity.
  - unfold on_radio_button_transcript_hex_clicked.
    step. cbn [modify_ui modify_dlg modify].
    rewrite update_transcript_view_run.
    destruct w as [[[] idx iv t sc sm tx] s tr]. reflexivity.
  - destruct w as [[[] idx iv t sc sm tx] s tr].
    unfold on_btn_save_transcript_clicked.
    destruct file_path; [reflexivity|].
    destruct io_error as [[cls [|[] args] str]|]; reflexivity.
  - destruct w as [[[] idx iv t sc sm tx] s tr].
    unfold on_btn_save_rx_clicked. cbn.
    destruct (data (rcv_device s)); [|reflexivity].
    destruct filename as [[|]|]; reflexivity.
  - destruct w as [[[] idx iv t sc sm tx] s tr]. reflexivity.
  - destruct w as [[[] idx iv t sc sm tx] s tr]. reflexivity.
  - destruct w as [[[] idx iv t sc sm tx] s0 tr]. reflexivity.
Qed.

(** ** Slices *)

Lemma slice_to_from {A} (k : Z) (xs : list A) :
  slice_to k xs ++ slice_from k xs = xs.
Proof.
  unfold slice_to, slice_from. destruct (k <? 0); apply firstn_skipn.
Qed.

Lemma slice_to_len {A} (xs : list A) : slice_to (len xs) xs = xs.
Proof.
  unfold slice_to, len.
  destruct (Z.ltb_spec (Z.of_nat (List.length xs)) 0); [lia|].
  rewrite Nat2Z.id. apply firstn_all.
Qed.

Lemma slice_to_app {A} (k : Z) (xs ys : list A) :
  0 <= k <= len xs -> slice_to k (xs ++ ys) = slice_to k xs.
Proof.
  unfold slice_to, len. intros Hk.
  destruct (Z.ltb_spec k 0); [lia|].
  rewrite firstn_app.
  replace (Z.to_nat k - List.length xs)%nat with 0%nat by lia.
  cbn. apply app_nil_r.
Qed.

Lemma slice_to_0 {A} (xs : list A) : slice_to 0 xs = [].
Proof. reflexivity. Qed.

Lemma len_nonneg {A} (xs : list A) : 0 <= len xs.
Proof. unfold len. lia. Qed.

Lemma len_app {A} (xs ys : list A) : len (xs ++ ys) = len xs + len ys.
Proof. unfold len. rewrite length_app. lia. Qed.

(** ** The transcript view *)

Lemma view_state_update_view (w : World) :
  view_state (exec update_view w)
  = (append_all
       (map (Spec.transcript_line (radioButtonTranscriptBit (ui (dlg w))))
          (slice_from (current_transcript_index (dlg w)) (transcript (sim w))))
       (textEditTranscript (ui (dlg w))),
     len (transcript (sim w)),
     radioButtonTranscriptBit (ui (dlg w)),
     transcript (sim w)).
Proof. rewrite update_view_exec. reflexivity. Qed.

Lemma shows_entries_of_view_state (bit : bool) (w : World) doc k tr :
  view_state w = (doc, k, bit, tr) ->
  0 <= k <= len tr ->
  doc = Spec.text_of_lines (map (Spec.transcript_line bit) (slice_to k tr)) ->
  shows_entries_before_cursor bit w.
Proof.
  unfold view_state, shows_entries_before_cursor.
  intros E Hk Hdoc. inversion E; subst. auto.
Qed.

Lemma lines_nonempty (bit : bool) (entries : list TranscriptEntry) :
  Forall (fun x : pystr => x <> []) (map (Spec.transcript_line bit) entries).
Proof.
  apply Forall_forall. intros x Hx. apply in_map_iff in Hx.
  destruct Hx as [e [<- _]]. apply transcript_line_nonempty.
Qed.

(** [update_view] completes the view: it then shows the whole transcript. *)
Lemma update_view_completes (bit : bool) (w : World) :
  shows_entries_before_cursor bit w ->
  view_state (exec update_view w)
  = (Spec.text_of_lines (map (Spec.transcript_line bit) (transcript (sim w))),
     len (transcript (sim w)), bit, transcript (sim w)).
Proof.
  intros (Hbit & Hk & Hdoc). rewrite view_state_update_view.
  rewrite Hbit, Hdoc. unfold append_all.
  rewrite append_lines by apply lines_nonempty.
  now rewrite <- map_app, slice_to_from.
Qed.

Lemma shows_entries_step (bit : bool) (e : Event) (w : World) :
  shows_entries_before_cursor bit w ->
  leaves_view_to_update_view e = true ->
  append_only (transcript (sim w)) [e] ->
  shows_entries_before_cursor bit (exec (handle e) w).
Proof.
  intros Inv He Happ.
  pose proof (handle_view_state e w) as Hv.
  remember (exec (handle e) w) as w' eqn:Ew'. clear Ew'.
  destruct e; try discriminate He;
    try (destruct Inv as (Hbit & Hk & Hdoc);
         unfold view_state at 2 in Hv; rewrite Hbit in Hv;
         exact (shows_entries_of_view_state Hv Hk Hdoc)).
  - (* simulation_stopped *)
    rewrite <- update_view_exec, (update_view_completes Inv) in Hv.
    eapply shows_entries_of_view_state; [exact Hv| |].
    + pose proof (len_nonneg (transcript (sim w))). lia.
    + now rewrite slice_to_len.
  - (* timer_timeout *)
    rewrite <- update_view_exec, (update_view_completes Inv) in Hv.
    eapply shows_entries_of_view_state; [exact Hv| |].
    + pose proof (len_nonneg (transcript (sim w))). lia.
    + now rewrite slice_to_len.
  - (* simulator_ran *)
    destruct Inv as (Hbit & Hk & Hdoc).
    cbn in Happ. destruct Happ as [[new Hnew] _].
    eapply shows_entries_of_view_state; [rewrite Hv, Hbit; reflexivity| |].
    + rewrite Hnew, len_app. pose proof (len_nonneg new). lia.
    + rewrite Hnew, slice_to_app by exact Hk. exact Hdoc.
Qed.

Lemma on_simulation_started_view_state (w : World) :
  view_state (exec on_simulation_started w)
  = ([], 0, radioButtonTranscriptBit (ui (dlg w)), transcript (sim w)).
Proof.
  destruct w as [[[] idx iv t sc sm tx] s tr].
  unfold exec, on_simulation_started. cbn.
  destruct (data (rcv_device s)); reflexivity.
Qed.

(** ** The claims *)

(** C1: every transcript line the dialog renders or exports has the format
    ["{sequence_index} ({source}->{destination}): {data}"], where [{data}]
    is the bit string when the bit radio button is checked and the hex
    string otherwise: this is the line both loops compute, the lines
    [update_view] appends, and the lines of the full rebuild by
    [update_transcript_view], which uses one rendering for all of them and
    whose text is what the export writes. *)
Theorem transcript_line_format (w : World) :
  let bit := radioButtonTranscriptBit (ui (dlg w)) in
  let lines := map (Spec.transcript_line bit) (transcript (sim w)) in
  (forall entry,
      transcript_line entry w = (Ok (Spec.transcript_line bit entry), w))
  /\ textEditTranscript (ui (dlg (exec update_view w)))
     = append_all
         (map (Spec.transcript_line bit)
            (slice_from (current_transcript_index (dlg w)) (transcript (sim w))))
         (textEditTranscript (ui (dlg w)))
  /\ fst (update_transcript_view w) = Ok tt
  /\ textEditTranscript (ui (dlg (exec update_transcript_view w)))
     = Spec.text_of_lines lines
  /\ (forall c path,
         trace (exec (on_btn_save_transcript_clicked (c :: path) None)
                  (exec update_transcript_view w))
         = trace w ++ [file_write (c :: path) (Spec.text_of_lines lines)]).
Proof.
  intros bit lines. repeat split.
  - intros entry. apply transcript_line_spec.
  - pose proof (view_state_update_view w) as H.
    remember (exec update_view w) as w' eqn:E. clear E.
    unfold view_state in H. now injection H as H _ _ _.
  - now rewrite update_transcript_view_run.
  - unfold exec. rewrite update_transcript_view_run.
    destruct w as [[[] ? ? ? ? ? ?] ? ?]. reflexivity.
  - intros c path. unfold exec. rewrite update_transcript_view_run.
    destruct w as [[[] ? ? ? ? ? ?] ? ?]. reflexivity.
Qed.

(** ** Refreshes while the simulator's thread moves *)

Lemma update_view_interleaved_run (th : Simulator -> Simulator) (w : World) :
  update_view_interleaved th w
  = (update_view_result (mkWorld (dlg w) (th (drained (sim w))) (trace w)),
     update_view_interleaved_world th w).
Proof.
  destruct w as [[u idx iv t sc sm tx] s tr].
  unfold update_view_interleaved.
  unfold bind at 1. unfold Simulator_device_messages.
  unfold bind at 1. cbn.
  unfold bind at 1. rewrite for_each_modify_ui, fold_left_with_textEditDevices.
  unfold bind at 1. unfold Simulator_read_log_messages.
  unfold bind at 1. cbn.
  unfold bind at 1. rewrite for_each_modify_ui, fold_left_with_textEditSimulation.
  unfold bind at 1. cbn.
  unfold bind at 1. rewrite for_each_transcript.
  unfold bind at 1. cbn.
  unfold update_view_interleaved_world, update_view_result, drained. cbn.
  destruct u, s as [run rep item trs dm lm rd sd]. cbn.
  destruct (th _) as [run1 rep1 item1 trs1 dm1 lm1 rd1 sd1]. cbn.
  destruct run1; cbn; [destruct item1; cbn|]; reflexivity.
Qed.

(** With the simulator's thread at rest the interleaved refresh is
    [update_view]. *)
Lemma update_view_interleaved_quiet (w : World) :
  update_view_interleaved (fun s => s) w = update_view w.
Proof.
  rewrite update_view_interleaved_run, update_view_run.
  destruct w as [[[] idx iv t sc sm tx] [run rep item trs dm lm rd sd] tr].
  reflexivity.
Qed.

(** What a tick of the timer does to the transcript view when the
    simulator's thread moves during the refresh: the lines are those of
    the transcript as the refresh found it, the cursor is the length of
    the transcript as the thread left it. *)
Lemma timer_timeout_during_view_state (th : Simulator -> Simulator) (w : World) :
  view_state (exec (handle_step (timer_timeout_during th)) w)
  = (append_all
       (map (Spec.transcript_line (radioButtonTranscriptBit (ui (dlg w))))
          (slice_from (current_transcript_index (dlg w)) (transcript (sim w))))
       (textEditTranscript (ui (dlg w))),
     len (transcript (th (drained (sim w)))),
     radioButtonTranscriptBit (ui (dlg w)),
     transcript (th (drained (sim w)))).
Proof.
  unfold exec. cbn [handle_step].
  step. rewrite update_view_interleaved_run.
  destruct w as [[[] idx iv t sc sm tx] s tr].
  unfold update_view_result, update_view_interleaved_world, update_rx_graphics_view.
  cbn.
  destruct (th (drained s)) as [run1 rep1 item1 trs1 dm1 lm1 rd1 sd1]. cbn.
  destruct run1; cbn; [destruct item1; cbn|];
    try reflexivity; destruct graphicsViewPreview0; reflexivity.
Qed.

Lemma run_steps_cons (st : Step) (steps : list Step) (w : World) :
  run_steps (st :: steps) w = run_steps steps (exec (handle_step st) w).
Proof. reflexivity. Qed.

(** The slots alone are the event loop. *)
Lemma run_steps_slots (events : list Event) (w : World) :
  run_steps (map slot events) w = run events w.
Proof.
  revert w. induction events as [|e events IH]; intros w; [reflexivity|].
  cbn [map]. rewrite run_steps_cons, IH. reflexivity.
Qed.

Lemma subseq_refl {A} (xs : list A) : subseq xs xs.
Proof. induction xs; constructor; assumption. Qed.

Lemma subseq_nil_l {A} (ys : list A) : subseq [] ys.
Proof. induction ys; constructor; assumption. Qed.

Lemma subseq_app {A} (xs ys xs' ys' : list A) :
  subseq xs ys -> subseq xs' ys' -> subseq (xs ++ xs') (ys ++ ys').
Proof.
  intros H H'. induction H; cbn; [assumption| |]; constructor; assumption.
Qed.

Lemma shows_entries_once_of_view_state (bit : bool) (w w' : World) :
  view_state w' = view_state w ->
  shows_entries_once bit w -> shows_entries_once bit w'.
Proof.
  unfold view_state, shows_entries_once.
  intros E. injection E as -> -> -> ->. auto.
Qed.

(** A refresh keeps the view to entries shown once, whatever the
    simulator's thread appends meanwhile. *)
Lemma refresh_shows_entries_once (bit : bool) (w w' : World)
    (new : list TranscriptEntry) :
  shows_entries_once bit w ->
  view_state w'
  = (append_all
       (map (Spec.transcript_line (radioButtonTranscriptBit (ui (dlg w))))
          (slice_from (current_transcript_index (dlg w)) (transcript (sim w))))
       (textEditTranscript (ui (dlg w))),
     len (transcript (sim w) ++ new),
     radioButtonTranscriptBit (ui (dlg w)),
     transcript (sim w) ++ new) ->
  shows_entries_once bit w'.
Proof.
  intros (Hbit & Hk & shown & Hsub & Hdoc) Hv.
  unfold view_state in Hv. injection Hv as Hdoc' Hk' Hbit' Htr'.
  unfold shows_entries_once. rewrite Hbit', Hk', Htr', Hdoc', Hbit, Hdoc.
  split; [reflexivity|]. split.
  - pose proof (len_nonneg (transcript (sim w) ++ new)). lia.
  - exists (shown ++ slice_from (current_transcript_index (dlg w))
                       (transcript (sim w))).
    split.
    + rewrite slice_to_len.
      rewrite <- (slice_to_from (current_transcript_index (dlg w))
                    (transcript (sim w))) at 2.
      rewrite <- app_assoc. apply subseq_app; [exact Hsub|].
      rewrite <- (app_nil_r (slice_from _ _)) at 1.
      apply subseq_app; [apply subseq_refl|apply subseq_nil_l].
    + unfold append_all. rewrite append_lines by apply lines_nonempty.
      now rewrite map_app.
Qed.

Lemma shows_entries_once_step (bit : bool) (st : Step) (w : World) :
  shows_entries_once bit w ->
  step_leaves_view_to_update_view st = true ->
  transcript_grows w (exec (handle_step st) w) ->
  shows_entries_once bit (exec (handle_step st) w).
Proof.
  intros Inv Hst [new Hnew].
  destruct st as [e|th].
  - cbn [handle_step step_leaves_view_to_update_view] in *.
    pose proof (handle_view_state e w) as Hv.
    remember (exec (handle e) w) as w' eqn:Ew'. clear Ew'.
    destruct e; try discriminate Hst;
      try exact (shows_entries_once_of_view_state Hv Inv).
    + (* simulation_stopped *)
      apply (@refresh_shows_entries_once bit w w' []); [exact Inv|].
      rewrite app_nil_r, Hv, <- update_view_exec. apply view_state_update_view.
    + (* timer_timeout *)
      apply (@refresh_shows_entries_once bit w w' []); [exact Inv|].
      rewrite app_nil_r, Hv, <- update_view_exec. apply view_state_update_view.
    + (* simulator_ran *)
      destruct Inv as (Hbit & Hk & shown & Hsub & Hdoc).
      unfold view_state in Hv. injection Hv as Hdoc' Hk' Hbit' Htr'.
      unfold shows_entries_once.
      rewrite Hbit', Hk', Hdoc', Hnew, len_app, slice_to_app by exact Hk.
      split; [exact Hbit|]. split.
      * pose proof (len_nonneg new). lia.
      * exists shown. auto.
  - pose proof (timer_timeout_during_view_state th w) as Hv.
    remember (exec (handle_step (timer_timeout_during th)) w) as w' eqn:Ew'.
    clear Ew'.
    apply (@refresh_shows_entries_once bit w w' new); [exact Inv|].
    rewrite Hv. unfold view_state in Hv. injection Hv as _ _ _ Htr'.
    now rewrite <- Htr', Hnew.
Qed.

Lemma shows_entries_once_run (bit : bool) (steps : list Step) (w : World) :
  shows_entries_once bit w ->
  forallb step_leaves_view_to_update_view steps = true ->
  append_only_steps steps w ->
  shows_entries_once bit (run_steps steps w).
Proof.
  revert w. induction steps as [|st steps IH]; intros w Inv Hall Happ.
  - exact Inv.
  - cbn [forallb] in Hall. apply andb_prop in Hall. destruct Hall as [Hst Hall].
    cbn [append_only_steps] in Happ. destruct Happ as [Hgrow Hrest].
    rewrite run_steps_cons. apply IH; auto.
    now apply shows_entries_once_step.
Qed.

(** With the simulator's thread leaving the transcript alone during the
    refreshes, the view shows the entries before the cursor, all of
    them. *)
Lemma shows_entries_undisturbed_step (bit : bool) (st : Step) (w : World) :
  shows_entries_before_cursor bit w ->
  step_leaves_view_to_update_view st = true ->
  transcript_grows w (exec (handle_step st) w) ->
  match st with
  | slot _ => True
  | timer_timeout_during _ =>
      transcript (sim (exec (handle_step st) w)) = transcript (sim w)
  end ->
  shows_entries_before_cursor bit (exec (handle_step st) w).
Proof.
  intros Inv Hst [new Hnew] Hquiet.
  destruct st as [e|th].
  - cbn [handle_step step_leaves_view_to_update_view] in *.
    apply shows_entries_step; auto.
    pose proof (handle_view_state e w) as Hv.
    remember (exec (handle e) w) as w' eqn:Ew'. clear Ew'.
    destruct e; try exact I.
    unfold view_state in Hv. injection Hv as _ _ _ Htr'.
    cbn. split; [|exact I]. exists new. now rewrite <- Htr'.
  - pose proof (timer_timeout_during_view_state th w) as Hv.
    remember (exec (handle_step (timer_timeout_during th)) w) as w' eqn:Ew'.
    clear Ew'.
    assert (Htr : transcript (th (drained (sim w))) = transcript (sim w)).
    { unfold view_state in Hv. injection Hv as _ _ _ Htr'.
      now rewrite <- Htr', Hquiet. }
    rewrite Htr, <- view_state_update_view, (update_view_completes Inv) in Hv.
    eapply shows_entries_of_view_state; [exact Hv| |].
    + pose proof (len_nonneg (transcript (sim w))). lia.
    + now rewrite slice_to_len.
Qed.

Lemma shows_entries_undisturbed_run (bit : bool) (steps : list Step) (w : World) :
  shows_entries_before_cursor bit w ->
  forallb step_leaves_view_to_update_view steps = true ->
  append_only_steps steps w ->
  refreshes_undisturbed steps w ->
  shows_entries_before_cursor bit (run_steps steps w).
Proof.
  revert w. induction steps as [|st steps IH]; intros w Inv Hall Happ Hq.
  - exact Inv.
  - cbn [forallb] in Hall. apply andb_prop in Hall. destruct Hall as [Hst Hall].
    cbn [append_only_steps] in Happ. destruct Happ as [Hgrow Hrest].
    cbn [refreshes_undisturbed] in Hq. destruct Hq as [Hq Hqrest].
    rewrite run_steps_cons. apply IH; auto.
    now apply shows_entries_undisturbed_step.
Qed.

Lemma shows_entries_before_cursor_once (bit : bool) (w : World) :
  shows_entries_before_cursor bit w -> shows_entries_once bit w.
Proof.
  intros (Hbit & Hk & Hdoc). split; [exact Hbit|]. split; [exact Hk|].
  eexists. split; [apply subseq_refl|exact Hdoc].
Qed.

(** C2: an entry the simulator appends to its transcript while a refresh
    runs is never shown.  The run begins and message 0 is sent; during
    the next refresh, after [update_view] has taken its slice of the
    transcript and before it reads the length, message 1 is sent.  The
    refresh shows entry 0 and sets the cursor to 2, past entry 1, which
    neither it nor the refresh after it appends to the view: with both
    entries in the transcript and the cursor at its end, the view holds
    the line of entry 0 alone. *)
Theorem update_view_skips_entry_appended_meanwhile :
  let w1 := exec on_simulation_started Demo.world in
  let steps :=
    [ slot (simulator_ran (Demo.simulator true [Demo.entry0] []));
      timer_timeout_during (Simulator_append [Demo.entry1]);
      slot timer_timeout ] in
  let w := run_steps steps w1 in
  append_only_steps steps w1
  /\ transcript (sim w) = [Demo.entry0; Demo.entry1]
  /\ current_transcript_index (dlg w) = len (transcript (sim w))
  /\ textEditTranscript (ui (dlg w)) = lit "0 (A->B): 10101010".
Proof.
  cbv zeta. split.
  - vm_compute. repeat split; eexists; reflexivity.
  - vm_compute. repeat split.
Qed.

Lemma calls_of_trace {A} (c : M A) (w : World) (made : list Call) :
  trace (exec c w) = trace w ++ made -> calls c w = made.
Proof.
  unfold calls. intros ->. rewrite skipn_app, skipn_all, Nat.sub_diag.
  reflexivity.
Qed.

Lemma on_btn_start_stop_clicked_calls (w : World) :
  calls on_btn_start_stop_clicked w
  = if is_simulating (sim w)
    then [Simulator_stop]
    else [emit_editing_finished_signals "device_settings_rx_widget";
          emit_editing_finished_signals "device_settings_tx_widget";
          emit_editing_finished_signals "sniff_settings_widget";
          Simulator_start].
Proof.
  apply calls_of_trace.
  destruct w as [[[] idx iv t sc sm tx] s tr].
  unfold exec, on_btn_start_stop_clicked. cbn.
  destruct (is_simulating s); cbn.
  - reflexivity.
  - now rewrite <- !app_assoc.
Qed.

(** C3: on a click of the start/stop button the dialog calls only [stop()]
    when the simulator reports [is_simulating], and calls [start()] only
    when it does not; so, [is_simulating] holding of a running engine, the
    button never calls [start()] on an engine that is [Running]. *)
Theorem start_stop_button (w : World) :
  (is_simulating (sim w) = true ->
   calls on_btn_start_stop_clicked w = [Simulator_stop])
  /\ (In Simulator_start (calls on_btn_start_stop_clicked w) ->
      is_simulating (sim w) = false)
  /\ (is_simulating (sim w) = false ->
      In Simulator_start (calls on_btn_start_stop_clicked w)
      /\ ~ In Simulator_stop (calls on_btn_start_stop_clicked w))
  /\ (forall st : Spec.ExecutionState,
         (st = Spec.Running -> is_simulating (sim w) = true) ->
         In Simulator_start (calls on_btn_start_stop_clicked w) ->
         st <> Spec.Running).
Proof.
  rewrite on_btn_start_stop_clicked_calls.
  destruct (is_simulating (sim w)) eqn:E; repeat split.
  - cbn. intros [H|[]]. discriminate H.
  - discriminate.
  - discriminate.
  - intros st Hst [H|[]]. discriminate H.
  - discriminate.
  - cbn. intuition discriminate.
  - cbn. intuition discriminate.
  - intros st Hst _ Hrun. specialize (Hst Hrun). discriminate Hst.
Qed.

Lemma start_stop_button_witness :
  is_simulating (Demo.simulator true [] []) = true
  /\ calls on_btn_start_stop_clicked
       (mkWorld (dlg Demo.world) (Demo.simulator true [] []) [])
     = [Simulator_stop].
Proof.
  split; [reflexivity|].
  apply (start_stop_button
           (mkWorld (dlg Demo.world) (Demo.simulator true [] []) [])).
  reflexivity.
Defined.

Lemma closeEvent_calls (w : World) :
  closeEvent w
  = (Ok tt,
     mkWorld (set_timer None (dlg w)) (sim w)
       (trace w
        ++ [emit_editing_finished_signals "device_settings_rx_widget";
            emit_editing_finished_signals "device_settings_tx_widget";
            emit_editing_finished_signals "sniff_settings_widget";
            emit_device_parameters_changed "device_settings_rx_widget";
            emit_device_parameters_changed "device_settings_tx_widget";
            emit_sniff_parameters_changed;
            Simulator_stop;
            time_sleep (1 # 10);
            Simulator_cleanup;
            super_closeEvent])).
Proof.
  destruct w as [[[] idx iv t sc sm tx] s tr].
  unfold closeEvent, emit_editing_finished_signals_all, call, modify. cbn.
  now rewrite <- !app_assoc.
Qed.

(** C4: [closeEvent] calls [simulator.stop()], then sleeps 0.1 s, then
    calls [simulator.cleanup()], in this order and next to each other;
    [cleanup()] is not called before: however far the slot gets, a call of
    [cleanup()] has the call of [stop()] and the sleep before it. *)
Theorem closeEvent_stop_before_cleanup (w : World) :
  exists before after,
    calls closeEvent w
    = before ++ [Simulator_stop; time_sleep (1 # 10); Simulator_cleanup] ++ after
    /\ ~ In Simulator_cleanup before
    /\ ~ In Simulator_cleanup after
    /\ forall n,
         In Simulator_cleanup (firstn n (calls closeEvent w)) ->
         exists k,
           (k + 3 <= n)%nat
           /\ firstn 3 (skipn k (calls closeEvent w))
              = [Simulator_stop; time_sleep (1 # 10); Simulator_cleanup]
           /\ ~ In Simulator_cleanup (firstn (k + 2) (calls closeEvent w)).
Proof.
  assert (E : calls closeEvent w
              = [emit_editing_finished_signals "device_settings_rx_widget";
                 emit_editing_finished_signals "device_settings_tx_widget";
                 emit_editing_finished_signals "sniff_settings_widget";
                 emit_device_parameters_changed "device_settings_rx_widget";
                 emit_device_parameters_changed "device_settings_tx_widget";
                 emit_sniff_parameters_changed;
                 Simulator_stop; time_sleep (1 # 10); Simulator_cleanup;
                 super_closeEvent]).
  { apply calls_of_trace. unfold exec. now rewrite closeEvent_calls. }
  rewrite E.
  exists [emit_editing_finished_signals "device_settings_rx_widget";
          emit_editing_finished_signals "device_settings_tx_widget";
          emit_editing_finished_signals "sniff_settings_widget";
          emit_device_parameters_changed "device_settings_rx_widget";
          emit_device_parameters_changed "device_settings_tx_widget";
          emit_sniff_parameters_changed],
         [super_closeEvent].
  split; [reflexivity|]. split; [cbn; intuition discriminate|].
  split; [cbn; intuition discriminate|].
  intros n Hn. exists 6%nat.
  do 9 (destruct n as [|n]; [cbn in Hn; intuition discriminate|]).
  split; [lia|]. split; [reflexivity|]. cbn. intuition discriminate.
Qed.

(** C5: a refresh of the view while the simulator reports [is_simulating]
    shows the current repeat plus one and the index of the current item;
    a refresh while it does not shows ["-"] in both labels. *)
Theorem current_repeat_and_item_labels (w : World) :
  (is_simulating (sim w) = true ->
   lblCurrentRepeatValue (ui (dlg (exec update_view w)))
   = str_int (current_repeat (sim w) + 1)
   /\ forall item,
        current_item (sim w) = Some item ->
        fst (update_view w) = Ok tt
        /\ lblCurrentItemValue (ui (dlg (exec update_view w))) = index item)
  /\ (is_simulating (sim w) = false ->
      fst (update_view w) = Ok tt
      /\ lblCurrentRepeatValue (ui (dlg (exec update_view w))) = lit "-"
      /\ lblCurrentItemValue (ui (dlg (exec update_view w))) = lit "-").
Proof.
  rewrite update_view_exec, update_view_run.
  unfold update_view_result, update_view_world, update_view_ui. cbn.
  split.
  - intros ->. split; [reflexivity|]. intros item ->. auto.
  - intros ->. auto.
Qed.

Lemma current_repeat_and_item_labels_witness :
  let w := mkWorld (dlg Demo.world) (Demo.simulator true [Demo.entry0] []) [] in
  is_simulating (sim w) = true
  /\ lblCurrentRepeatValue (ui (dlg (exec update_view w))) = lit "1"
  /\ lblCurrentItemValue (ui (dlg (exec update_view w))) = lit "1".
Proof.
  intros w.
  destruct (current_repeat_and_item_labels w) as [Hrun _].
  destruct (Hrun eq_refl) as [Hrep Hitem].
  destruct (Hitem {| index := lit "1" |} eq_refl) as [_ Hidx].
  split; [reflexivity|]. split; [exact Hrep|exact Hidx].
Defined.

(** ** The polling timer *)

Lemma timer_after_cons (e : Event) (rest : list Event) (t : option Z) :
  Spec.timer_after (e :: rest) t
  = Spec.timer_after rest (Spec.timer_after [e] t).
Proof. destruct e; reflexivity. Qed.

Lemma run_clock (events : list Event) (w : World) :
  update_interval (dlg w) = 25 ->
  clock (run events w) = (25, Spec.timer_after events (timer (dlg w))).
Proof.
  revert w. induction events as [|e events IH]; intros w Hiv.
  - unfold run, clock. cbn [fold_left Spec.timer_after]. now rewrite Hiv.
  - pose proof (@handle_clock e w Hiv) as He.
    cbn [run fold_left]. fold (run events (exec (handle e) w)).
    remember (exec (handle e) w) as w' eqn:Ew'. clear Ew'.
    unfold clock in He. injection He as Hiv' Ht'.
    rewrite (IH w' Hiv'), Ht'. now rewrite (timer_after_cons e events).
Qed.

Lemma SimulatorDialog_init_clock ui0 scene tx_widget default_view s :
  clock (SimulatorDialog_init ui0 scene tx_widget default_view s) = (25, None).
Proof.
  destruct ui0. unfold SimulatorDialog_init, exec, update_buttons. cbn.
  destruct (default_view =? 1); reflexivity.
Qed.

Lemma on_simulation_started_clock (w : World) :
  clock (exec on_simulation_started w) = (update_interval (dlg w), Some (update_interval (dlg w))).
Proof.
  destruct w as [[[] idx iv t sc sm tx] s tr].
  unfold exec, on_simulation_started. cbn.
  destruct (data (rcv_device s)); reflexivity.
Qed.

Lemma on_simulation_stopped_refreshed (w : World) :
  timer (dlg (exec on_simulation_stopped w)) = None
  /\ refreshed (exec on_simulation_stopped w) = refreshed (exec update_view w).
Proof.
  rewrite update_view_exec.
  split;
    unfold exec, on_simulation_stopped;
    (step; rewrite for_each_modify_ui; cbv beta iota);
    (step; cbn [modify_dlg modify]);
    (step; rewrite update_view_run);
    destruct w as [[[] idx iv t sc sm tx] s tr];
    unfold update_view_result, refreshed, update_view_world, update_view_ui;
    cbn;
    (destruct (is_simulating s); cbn; [destruct (current_item s); cbn|]);
    reflexivity.
Qed.

(** C6: the polling timer has the fixed interval of 25 ms and is active
    exactly while a simulation runs.  After any events on a new dialog the
    interval is still 25 and the timer is as the notifications prescribe:
    running at 25 ms since the last simulation-started notification, not
    running after a simulation-stopped notification (or the closing of the
    dialog) and before the first start.  The slot of the started
    notification starts it with the interval, the slot of the stopped
    notification stops it and leaves the views as one more [update_view]
    does. *)
Theorem polling_timer ui0 scene tx_widget default_view s (events : list Event) :
  let w := run events (SimulatorDialog_init ui0 scene tx_widget default_view s) in
  update_interval (dlg w) = 25
  /\ timer (dlg w) = Spec.timer_after events None
  /\ timer (dlg (exec on_simulation_started w)) = Some 25
  /\ timer (dlg (exec on_simulation_stopped w)) = None
  /\ refreshed (exec on_simulation_stopped w) = refreshed (exec update_view w).
Proof.
  intros w.
  pose proof (SimulatorDialog_init_clock ui0 scene tx_widget default_view s) as H0.
  remember (SimulatorDialog_init ui0 scene tx_widget default_view s) as w0 eqn:E0.
  clear E0. unfold clock in H0. injection H0 as Hiv0 Ht0.
  pose proof (@run_clock events w0 Hiv0) as H. fold w in H. clearbody w.
  unfold clock in H. rewrite Ht0 in H. injection H as Hiv Ht.
  pose proof (on_simulation_started_clock w) as H1.
  pose proof (on_simulation_stopped_refreshed w) as [H2 H3].
  remember (exec on_simulation_started w) as w1 eqn:E1. clear E1.
  unfold clock in H1. injection H1 as _ Ht1. rewrite Hiv in Ht1.
  auto.
Qed.

(** ** The log buttons *)

Lemma update_buttons_run (w : World) :
  update_buttons w
  = (Ok tt,
     put_ui
       (set_btnLogNone
          (existsb logging_active (selectable_items (simulator_scene (dlg w))))
          (set_btnLogAll
             (negb (forallb logging_active
                      (selectable_items (simulator_scene (dlg w)))))
             (set_btnToggleLog
                (negb (len (selectedItems (simulator_scene (dlg w))) =? 0))
                (ui (dlg w)))))
       w).
Proof.
  destruct w as [[[] idx iv t sc sm tx] s tr]. reflexivity.
Qed.

Lemma negb_forallb_true {A} (p : A -> bool) (xs : list A) :
  negb (forallb p xs) = true <-> exists x, In x xs /\ p x = false.
Proof.
  rewrite negb_true_iff. induction xs as [|x xs IH]; cbn.
  - split; [discriminate|intros [x [[] _]]].
  - rewrite andb_false_iff, IH. split.
    + intros [H|[y [Hy Hp]]]; eauto.
    + intros [y [[->|Hy] Hp]]; eauto.
Qed.



(** ** The device of the sender *)

Section TxDeviceFacts.

Variable set_name : pystr -> Sender -> result Sender.

(** The world with the error reported. *)
Let reported (e : exn) (w : World) : World :=
  mkWorld (dlg w) (sim w)
    (trace w ++ [Errors_generic_error (lit "Error occurred") (exc_str e)]).

Lemma tx_device_changed_ok (reentered : M unit) (w : World) (snd' : Sender) :
  set_name (cbDevice (device_settings_tx_widget (dlg w))) (sender (sim w))
  = Ok snd' ->
  tx_device_changed set_name reentered w
  = (Ok tt,
     mkWorld
       (with_device_settings_tx_widget
          (fun wd => {| cbDevice := cbDevice wd;
                        cbDevice_items := cbDevice_items wd;
                        widget_device := device snd' |})
          (dlg w))
       (set_sender snd' (sim w)) (trace w)).
Proof.
  intros Hok.
  destruct w as [[u idx iv t sc sm tx] [run rep item trs dm lm rd sd] tr].
  cbn in Hok. unfold tx_device_changed, try_except, bind. cbn.
  rewrite Hok. reflexivity.
Qed.

Lemma tx_device_changed_raised (reentered : M unit) (w : World) (e : exn) :
  set_name (cbDevice (device_settings_tx_widget (dlg w))) (sender (sim w))
  = Raised e ->
  tx_device_changed set_name reentered w
  = let w1 := mkWorld
                (with_device_settings_tx_widget
                   (cbDevice_setCurrentText (device_name (sender (sim w))))
                   (dlg w))
                (sim w) (trace w) in
    if pystr_eq_dec (cbDevice (device_settings_tx_widget (dlg w1)))
         (cbDevice (device_settings_tx_widget (dlg w)))
    then (Ok tt, reported e w1)
    else match reentered w1 with
         | (Ok _, w2) => (Ok tt, reported e w2)
         | (Raised x, w2) => (Raised x, w2)
         end.
Proof.
  intros Hraise.
  destruct w as [[u idx iv t sc sm tx] [run rep item trs dm lm rd sd] tr].
  cbn in Hraise. unfold tx_device_changed, try_except, bind. cbn.
  rewrite Hraise. cbn.
  destruct (pystr_eq_dec _ _); [reflexivity|].
  destruct (reentered _) as [[[]|x] w2]; reflexivity.
Qed.

(** Writing the current text changes nothing. *)
Lemma cbDevice_setCurrentText_same (wd : DeviceSettingsWidget) :
  cbDevice_setCurrentText (cbDevice wd) wd = wd.
Proof.
  destruct wd as [text items dev]. unfold cbDevice_setCurrentText.
  cbn [cbDevice cbDevice_items widget_device].
  destruct (in_dec pystr_eq_dec text items); reflexivity.
Qed.

Lemma tx_device_changed_raised_in_sync (reentered : M unit) (w : World)
    (e : exn) :
  set_name (cbDevice (device_settings_tx_widget (dlg w))) (sender (sim w))
  = Raised e ->
  cbDevice (device_settings_tx_widget (dlg w)) = device_name (sender (sim w)) ->
  tx_device_changed set_name reentered w = (Ok tt, reported e w).
Proof.
  intros Hraise Hsync.
  rewrite (tx_device_changed_raised _ _ Hraise). cbv zeta.
  rewrite <- Hsync.
  destruct w as [[u idx iv t sc sm tx] s tr].
  unfold with_device_settings_tx_widget.
  cbn [dlg sim trace device_settings_tx_widget
       ui current_transcript_index update_interval timer simulator_scene
       scene_manager].
  rewrite cbDevice_setCurrentText_same.
  destruct (pystr_eq_dec (cbDevice tx) (cbDevice tx)); [reflexivity|congruence].
Qed.

(** With the combo box on the sender's device name, the slot does not run
    from within. *)
Lemma tx_device_changed_in_sync (reentered : M unit) (w : World) :
  cbDevice (device_settings_tx_widget (dlg w)) = device_name (sender (sim w)) ->
  tx_device_changed set_name reentered w = tx_device_changed set_name (ret tt) w.
Proof.
  intros Hsync.
  destruct (set_name (cbDevice (device_settings_tx_widget (dlg w)))
              (sender (sim w))) as [snd'|e] eqn:E.
  - now rewrite !(tx_device_changed_ok _ _ E).
  - now rewrite !(tx_device_changed_raised_in_sync _ _ E Hsync).
Qed.

Lemma cbDevice_setCurrentText_sets (text : pystr) (wd : DeviceSettingsWidget) :
  cbDevice (cbDevice_setCurrentText text wd)
  = if in_dec pystr_eq_dec text (cbDevice_items wd) then text else cbDevice wd.
Proof.
  unfold cbDevice_setCurrentText.
  now destruct (in_dec pystr_eq_dec text (cbDevice_items wd)).
Qed.

(** However deep the slot is allowed to run from within, it does so at
    most once. *)
Lemma on_selected_tx_device_changed_depth (n : nat) (w : World) :
  on_selected_tx_device_changed_nested set_name (S n) w
  = on_selected_tx_device_changed set_name w.
Proof.
  unfold on_selected_tx_device_changed.
  cbn [on_selected_tx_device_changed_nested].
  destruct (set_name (cbDevice (device_settings_tx_widget (dlg w)))
              (sender (sim w))) as [snd'|e] eqn:E.
  - now rewrite !(tx_device_changed_ok _ _ E).
  - rewrite !(tx_device_changed_raised _ _ E). cbv zeta.
    destruct (pystr_eq_dec _ _) as [Hsame|Hchanged]; [reflexivity|].
    assert (Hsync : forall d,
               on_selected_tx_device_changed_nested set_name d
                 (mkWorld
                    (with_device_settings_tx_widget
                       (cbDevice_setCurrentText (device_name (sender (sim w))))
                       (dlg w))
                    (sim w) (trace w))
               = tx_device_changed set_name (ret tt)
                   (mkWorld
                      (with_device_settings_tx_widget
                         (cbDevice_setCurrentText (device_name (sender (sim w))))
                         (dlg w))
                      (sim w) (trace w))).
    { intros d. destruct d; cbn [on_selected_tx_device_changed_nested];
        [reflexivity|].
      apply tx_device_changed_in_sync.
      destruct w as [[u idx iv t sc sm tx] s tr]. cbn in *.
      rewrite cbDevice_setCurrentText_sets in *.
      destruct (in_dec pystr_eq_dec _ _); [reflexivity|congruence]. }
    now rewrite !Hsync.
Qed.

(** C8: when the assignment of the new device name to the sender raises,
    the slot catches the exception, restores the device combo box to the
    previously selected device name, the one of the device the sender is
    on, which is an entry of the box, and reports the error with the text
    of the exception as the last thing it does.  The combo box then shows
    the selection of before the change. *)
Theorem tx_device_change_failure (w : World) (e : exn) :
  set_name (cbDevice (device_settings_tx_widget (dlg w))) (sender (sim w))
  = Raised e ->
  In (device_name (sender (sim w)))
     (cbDevice_items (device_settings_tx_widget (dlg w))) ->
  let w' := exec (on_selected_tx_device_changed set_name) w in
  fst (on_selected_tx_device_changed set_name w) = Ok tt
  /\ cbDevice (device_settings_tx_widget (dlg w')) = device_name (sender (sim w))
  /\ cbDevice_items (device_settings_tx_widget (dlg w'))
     = cbDevice_items (device_settings_tx_widget (dlg w))
  /\ exists before,
       calls (on_selected_tx_device_changed set_name) w
       = before ++ [Errors_generic_error (lit "Error occurred") (exc_str e)].
Proof.
  intros Hraise Hin w'. subst w'.
  unfold calls, exec, on_selected_tx_device_changed.
  cbn [on_selected_tx_device_changed_nested].
  rewrite (tx_device_changed_raised _ _ Hraise). cbv zeta.
  set (old := device_name (sender (sim w))) in *.
  set (w1 := mkWorld (with_device_settings_tx_widget
                        (cbDevice_setCurrentText old) (dlg w))
               (sim w) (trace w)).
  assert (H1 : cbDevice (device_settings_tx_widget (dlg w1)) = old).
  { subst w1. destruct w as [[u idx iv t sc sm tx] s tr]. cbn in *.
    rewrite cbDevice_setCurrentText_sets.
    destruct (in_dec pystr_eq_dec old (cbDevice_items tx)); [reflexivity|tauto]. }
  assert (H1i : cbDevice_items (device_settings_tx_widget (dlg w1))
                = cbDevice_items (device_settings_tx_widget (dlg w))).
  { subst w1. destruct w as [[u idx iv t sc sm tx] s tr]. cbn in *.
    unfold cbDevice_setCurrentText.
    now destruct (in_dec pystr_eq_dec old (cbDevice_items tx)). }
  assert (Ht1 : trace w1 = trace w) by reflexivity.
  assert (Hs1 : sim w1 = sim w) by reflexivity.
  clearbody w1.
  destruct (pystr_eq_dec _ _) as [Hsame|Hchanged].
  - cbn. repeat split; auto.
    exists []. rewrite Ht1, skipn_app, skipn_all, Nat.sub_diag. reflexivity.
  - destruct (set_name (cbDevice (device_settings_tx_widget (dlg w1)))
                (sender (sim w1))) as [snd'|e'] eqn:E.
    + rewrite (tx_device_changed_ok _ _ E). cbn.
      destruct w1 as [[u1 idx1 iv1 t1 sc1 sm1 tx1] s1 tr1]. cbn in *.
      repeat split; auto.
      exists []. rewrite Ht1, skipn_app, skipn_all, Nat.sub_diag. reflexivity.
    + assert (Hsync : cbDevice (device_settings_tx_widget (dlg w1))
                      = device_name (sender (sim w1)))
        by (rewrite Hs1; exact H1).
      rewrite (tx_device_changed_raised_in_sync _ _ E Hsync).
      cbn. repeat split; auto.
      exists [Errors_generic_error (lit "Error occurred") (exc_str e')].
      rewrite Ht1, <- app_assoc, skipn_app, skipn_all, Nat.sub_diag.
      reflexivity.
Qed.

End TxDeviceFacts.

Lemma tx_device_change_failure_witness :
  Demo.set_device_name (lit "HackRF") (sender (sim Demo.world))
  = Raised {| exc_class := "Exception";
              exc_args := [py_str (lit "device not found")];
              exc_str := lit "device not found" |}
  /\ In (lit "USRP") (cbDevice_items (device_settings_tx_widget (dlg Demo.world)))
  /\ cbDevice (device_settings_tx_widget (dlg Demo.world)) = lit "HackRF"
  /\ cbDevice (device_settings_tx_widget
                 (dlg (exec (on_selected_tx_device_changed Demo.set_device_name)
                         Demo.world)))
     = lit "USRP".
Proof.
  split; [reflexivity|]. split; [now left|]. split; [reflexivity|].
  apply (@tx_device_change_failure Demo.set_device_name Demo.world
           {| exc_class := "Exception";
              exc_args := [py_str (lit "device not found")];
              exc_str := lit "device not found" |}).
  - reflexivity.
  - now left.
Defined.

(** ** Device and log lines *)

Lemma dropwhile_head (p : N -> bool) (s r : pystr) (c : N) :
  dropwhile p s = c :: r -> p c = false.
Proof.
  induction s as [|x s IH]; cbn; [discriminate|].
  destruct (p x) eqn:E; [exact IH|]. intros H. injection H as -> _. exact E.
Qed.

Lemma rstrip_not_blank (s : pystr) :
  rstrip s <> [] -> Spec.blank (rstrip s) = false.
Proof.
  unfold rstrip, Spec.blank. rewrite forallb_rev.
  destruct (dropwhile isspace (rev s)) as [|c r] eqn:E;
    [intros H; now contradiction H|].
  intros _. cbn. now rewrite (dropwhile_head _ _ E).
Qed.

(** C9: [update_view] appends to the device view and to the simulation
    view the lines of the simulator's device messages and log messages
    that are not blank, stripped of trailing white space, in order; what
    it appends is never empty nor white space only, and of messages that
    are all blank it appends nothing. *)
Theorem blank_lines_not_shown (w : World) :
  let shown msgs := map rstrip (filter (fun m => negb (Spec.blank m)) msgs) in
  textEditDevices (ui (dlg (exec update_view w)))
  = append_all (shown (device_message_buffer (sim w)))
      (textEditDevices (ui (dlg w)))
  /\ textEditSimulation (ui (dlg (exec update_view w)))
     = append_all (shown (log_messages (sim w)))
         (textEditSimulation (ui (dlg w)))
  /\ (forall msgs line,
         In line (shown msgs) -> line <> [] /\ Spec.blank line = false)
  /\ (forall msgs, forallb Spec.blank msgs = true -> shown msgs = []).
Proof.
  intros shown. rewrite update_view_exec.
  unfold update_view_world, update_view_ui. cbn.
  rewrite !filter_None_rstrip. repeat split.
  - subst shown. apply in_map_iff in H. destruct H as [m [<- Hm]].
    apply filter_In in Hm. destruct Hm as [_ Hm].
    rewrite <- truthy_rstrip in Hm. now destruct (rstrip m).
  - subst shown. apply in_map_iff in H. destruct H as [m [<- Hm]].
    apply filter_In in Hm. destruct Hm as [_ Hm].
    rewrite <- truthy_rstrip in Hm. apply rstrip_not_blank.
    now destruct (rstrip m).
  - intros msgs Hall. subst shown. cbv beta.
    induction msgs as [|m msgs IH]; [reflexivity|].
    cbn in Hall. apply andb_prop in Hall. destruct Hall as [Hm Hall].
    cbn. rewrite Hm. cbn. now apply IH.
Qed.

Lemma blank_lines_not_shown_witness :
  textEditSimulation
    (ui (dlg (exec update_view
                (mkWorld (dlg Demo.world)
                   (Demo.simulator true []
                      [lit "Sending A->B  "; lit "   "; []; lit "done"])
                   []))))
  = lit "Sending A->B" ++ newline ++ lit "done".
Proof.
  destruct (blank_lines_not_shown
              (mkWorld (dlg Demo.world)
                 (Demo.simulator true []
                    [lit "Sending A->B  "; lit "   "; []; lit "done"])
                 [])) as (_ & H & _).
  rewrite H. vm_compute. reflexivity.
Defined.

(** ** The RX capture *)

Lemma on_btn_save_rx_clicked_calls (filename : option pystr) (w : World) :
  calls (on_btn_save_rx_clicked filename) w
  = match data (rcv_device (sim w)), filename with
    | ndarray samples, Some (c :: path) =>
        [ndarray_tofile (slice_to (current_index (rcv_device (sim w))) samples)
           (c :: path)]
    | _, _ => []
    end.
Proof.
  apply calls_of_trace.
  destruct w as [[u idx iv t sc sm tx] s tr].
  unfold exec, on_btn_save_rx_clicked. cbn.
  destruct (data (rcv_device s)); cbn; [|now rewrite app_nil_r].
  destruct filename as [[|c path]|]; cbn; now rewrite ?app_nil_r.
Qed.

(** C10: saving the RX capture writes, to the chosen file, exactly the
    samples of the receive device's buffer before its [current_index],
    and nothing else; it writes nothing when the data is not a numpy array
    and nothing when no file name is chosen. *)
Theorem save_rx_writes_prefix (filename : option pystr) (w : World) :
  let rx_device := rcv_device (sim w) in
  (forall samples c path,
      data rx_device = ndarray samples ->
      filename = Some (c :: path) ->
      0 <= current_index rx_device ->
      calls (on_btn_save_rx_clicked filename) w
      = [ndarray_tofile (firstn (Z.to_nat (current_index rx_device)) samples)
           (c :: path)])
  /\ (data rx_device = none_data ->
      calls (on_btn_save_rx_clicked filename) w = [])
  /\ (filename = None \/ filename = Some [] ->
      calls (on_btn_save_rx_clicked filename) w = [])
  /\ fst (on_btn_save_rx_clicked filename w) = Ok tt.
Proof.
  intros rx_device. rewrite on_btn_save_rx_clicked_calls. fold rx_device.
  repeat split.
  - intros samples c path -> -> Hidx. unfold slice_to.
    destruct (Z.ltb_spec (current_index rx_device) 0); [lia|reflexivity].
  - now intros ->.
  - intros [-> | ->]; now destruct (data rx_device).
  - destruct w as [[u idx iv t sc sm tx] s tr].
    unfold on_btn_save_rx_clicked. cbn.
    destruct (data (rcv_device s)); [|reflexivity].
    destruct filename as [[|c path]|]; reflexivity.
Qed.

Lemma save_rx_writes_prefix_witness :
  data (rcv_device (sim Demo.world))
  = ndarray [(1 # 2, 0 # 1); (1 # 4, 0 # 1); (0 # 1, 1 # 8)]
  /\ 0 <= current_index (rcv_device (sim Demo.world))
  /\ calls (on_btn_save_rx_clicked (Some (lit "simulation_capture.complex")))
       Demo.world
     = [ndarray_tofile [(1 # 2, 0 # 1); (1 # 4, 0 # 1)]
          (lit "simulation_capture.complex")].
Proof.
  split; [reflexivity|]. split; [vm_compute; discriminate|].
  destruct (save_rx_writes_prefix (Some (lit "simulation_capture.complex"))
              Demo.world) as [H _].
  apply (H [(1 # 2, 0 # 1); (1 # 4, 0 # 1); (0 # 1, 1 # 8)]
           (N_of_ascii "s") (lit "imulation_capture.complex")).
  - reflexivity.
  - reflexivity.
  - vm_compute; discriminate.
Defined.

(** ** Beyond the claims: start and stop of a simulation *)

Lemma nth_error_setTabEnabled (i j : nat) (enabled : bool) (tabs : list bool) :
  nth_error (setTabEnabled i enabled tabs) j
  = if Nat.eqb j i
    then option_map (fun _ => enabled) (nth_error tabs j)
    else nth_error tabs j.
Proof.
  revert i j. induction tabs as [|t tabs IH]; intros i j.
  - destruct i, j; cbn; try reflexivity. now destruct (Nat.eqb j i).
  - destruct i as [|i], j as [|j]; cbn; try reflexivity. apply IH.
Qed.

Lemma length_setTabEnabled (i : nat) (enabled : bool) (tabs : list bool) :
  List.length (setTabEnabled i enabled tabs) = List.length tabs.
Proof.
  revert i. induction tabs as [|t tabs IH]; intros i; [now destruct i|].
  destruct i; cbn; [reflexivity|]. now rewrite IH.
Qed.

(** The tabs after the loop over [range(3)]: the first three take the new
    state, as far as they exist, and the others keep theirs. *)
Lemma set_three_tabs_spec (enabled : bool) (tabs : list bool) :
  List.length (set_three_tabs enabled tabs) = List.length tabs
  /\ forall j,
       nth_error (set_three_tabs enabled tabs) j
       = if (j <? 3)%nat
         then option_map (fun _ => enabled) (nth_error tabs j)
         else nth_error tabs j.
Proof.
  unfold set_three_tabs. split.
  - now rewrite !length_setTabEnabled.
  - intros j. rewrite !nth_error_setTabEnabled.
    destruct j as [|[|[|j]]]; cbn; try reflexivity;
      now destruct (nth_error tabs _).
Qed.

Lemma on_simulation_started_run (w : World) :
  on_simulation_started w
  = (Ok tt,
     let u := ui (dlg w) in
     let m := scene_manager (dlg w) in
     let capture_full := fst (checkBoxCaptureFullRX u) in
     mkWorld
       (mkDialog
          (mkUi [] [] [] (radioButtonTranscriptBit u) (lit "-") (lit "-")
             (btnToggleLog u) (btnLogAll u) (btnLogNone u)
             (lit "media-playback-stop", lit "Stop")
             (set_three_tabs false (tabWidgetSimulatorSettings u))
             (capture_full, false)
             (match data (rcv_device (sim w)) with
              | ndarray _ => true
              | none_data => false
              end))
          0 (update_interval (dlg w)) (Some (update_interval (dlg w)))
          (simulator_scene (dlg w))
          (match data (rcv_device (sim w)) with
           | ndarray samples =>
               {| plot_data := if capture_full then map fst samples
                               else plot_data m;
                  data_array := if capture_full then data_array m
                                else map fst samples;
                  sm_end := sm_end m;
                  sm_text_items := [] |}
           | none_data =>
               {| plot_data := if capture_full then [] else plot_data m;
                  data_array := if capture_full then data_array m else [];
                  sm_end := sm_end m;
                  sm_text_items := [lit "Could not generate RX preview."] |}
           end)
          (device_settings_tx_widget (dlg w)))
       (sim w) (trace w)).
Proof.
  destruct w as [[[] idx iv t sc sm tx] s tr].
  unfold on_simulation_started. cbn.
  destruct (data (rcv_device s)); reflexivity.
Qed.

(** X1: the started notification empties the three text views, resets the
    cursor and the two labels, disables the settings tabs 0 to 2 (no
    other tab, and none added) and the capture checkbox without changing
    whether it is checked, and turns the button into a stop button; it
    calls nothing outside the dialog and leaves the simulator and the
    log buttons alone. *)
Theorem simulation_started_effect (w : World) :
  let w' := exec on_simulation_started w in
  fst (on_simulation_started w) = Ok tt
  /\ refreshed w' = ([], [], [], 0, lit "-", lit "-")
  /\ btnStartStop (ui (dlg w')) = (lit "media-playback-stop", lit "Stop")
  /\ checkBoxCaptureFullRX (ui (dlg w'))
     = (fst (checkBoxCaptureFullRX (ui (dlg w))), false)
  /\ List.length (tabWidgetSimulatorSettings (ui (dlg w')))
     = List.length (tabWidgetSimulatorSettings (ui (dlg w)))
  /\ (forall j,
         nth_error (tabWidgetSimulatorSettings (ui (dlg w'))) j
         = if (j <? 3)%nat
           then option_map (fun _ => false)
                  (nth_error (tabWidgetSimulatorSettings (ui (dlg w))) j)
           else nth_error (tabWidgetSimulatorSettings (ui (dlg w))) j)
  /\ (btnToggleLog (ui (dlg w')), btnLogAll (ui (dlg w')), btnLogNone (ui (dlg w')))
     = (btnToggleLog (ui (dlg w)), btnLogAll (ui (dlg w)), btnLogNone (ui (dlg w)))
  /\ sim w' = sim w
  /\ trace w' = trace w.
Proof.
  intros w'. subst w'. unfold exec. rewrite on_simulation_started_run.
  cbn [fst snd]. cbv zeta. unfold refreshed. cbn.
  pose proof (set_three_tabs_spec false (tabWidgetSimulatorSettings (ui (dlg w))))
    as [Hlen Hnth].
  repeat split; auto.
Qed.

(** X2: the started notification sets up the RX preview from the receive
    buffer.  With a numpy array the preview is enabled, the real parts of
    the samples go to [plot_data] when the capture checkbox is checked and
    to [data_array] otherwise, and the scene has no text item; without one
    the preview is disabled, that array is emptied and the scene's only
    text item is the notice.  [end] and the other array are kept. *)
Theorem simulation_started_preview (w : World) :
  let w' := exec on_simulation_started w in
  let m := scene_manager (dlg w) in
  let m' := scene_manager (dlg w') in
  let capture_full := fst (checkBoxCaptureFullRX (ui (dlg w))) in
  sm_end m' = sm_end m
  /\ (if capture_full then data_array m' = data_array m
      else plot_data m' = plot_data m)
  /\ match data (rcv_device (sim w)) with
     | ndarray samples =>
         graphicsViewPreview (ui (dlg w')) = true
         /\ sm_text_items m' = []
         /\ (if capture_full then plot_data m' else data_array m')
            = map fst samples
     | none_data =>
         graphicsViewPreview (ui (dlg w')) = false
         /\ sm_text_items m' = [lit "Could not generate RX preview."]
         /\ (if capture_full then plot_data m' else data_array m') = []
     end.
Proof.
  intros w' m m' capture_full. subst w' m'. unfold exec.
  rewrite on_simulation_started_run. cbn [fst snd]. cbv zeta. cbn.
  fold m. fold capture_full.
  destruct (data (rcv_device (sim w))); destruct capture_full; cbn; auto.
Qed.

Lemma on_simulation_stopped_run (w : World) :
  on_simulation_stopped w
  = let u := ui (dlg w) in
    let w1 :=
      mkWorld
        (set_timer None
           (dlg (put_ui (with_tabWidgetSimulatorSettings (set_three_tabs true) u) w)))
        (sim w) (trace w) in
    match update_view_result w with
    | Ok _ =>
        (Ok tt,
         put_ui
           (with_checkBoxCaptureFullRX (fun c => (fst c, true))
              (set_btnStartStop (lit "media-playback-start", lit "Start")
                 (update_view_ui w1)))
           (update_view_world w1))
    | Raised e => (Raised e, update_view_world w1)
    end.
Proof.
  unfold on_simulation_stopped.
  step. rewrite for_each_modify_ui. cbv beta iota.
  step. cbn [modify_dlg modify].
  step. rewrite update_view_run.
  destruct w as [[[] idx iv t sc sm tx] s tr].
  unfold update_view_result. cbn.
  destruct (is_simulating s); cbn; [destruct (current_item s); cbn|];
    reflexivity.
Qed.

(** X3: the stopped notification always stops the timer, enables the
    settings tabs 0 to 2 and refreshes the view.  When the refresh
    returns, the button becomes a start button again and the capture
    checkbox is enabled, still checked as before.  When the refresh
    raises (the simulator still reports [is_simulating] and has no
    current item) the slot raises too, and the button and the checkbox
    stay as they were. *)
Theorem simulation_stopped_effect (w : World) :
  let w' := exec on_simulation_stopped w in
  timer (dlg w') = None
  /\ tabWidgetSimulatorSettings (ui (dlg w'))
     = set_three_tabs true (tabWidgetSimulatorSettings (ui (dlg w)))
  /\ refreshed w' = refreshed (exec update_view w)
  /\ trace w' = trace w
  /\ (if is_simulating (sim w)
         && match current_item (sim w) with Some _ => false | None => true end
      then fst (on_simulation_stopped w) = Raised AttributeError_index
           /\ btnStartStop (ui (dlg w')) = btnStartStop (ui (dlg w))
           /\ checkBoxCaptureFullRX (ui (dlg w'))
              = checkBoxCaptureFullRX (ui (dlg w))
      else fst (on_simulation_stopped w) = Ok tt
           /\ btnStartStop (ui (dlg w'))
              = (lit "media-playback-start", lit "Start")
           /\ checkBoxCaptureFullRX (ui (dlg w'))
              = (fst (checkBoxCaptureFullRX (ui (dlg w))), true)).
Proof.
  intros w'. subst w'. rewrite update_view_exec. unfold exec.
  rewrite on_simulation_stopped_run. cbv zeta.
  destruct w as [[[] idx iv t sc sm tx] [run rep item trs dm lm rd sd] tr].
  unfold update_view_result, refreshed. cbn.
  destruct run; cbn; [destruct item; cbn|]; repeat split; reflexivity.
Qed.

(** ** Beyond the claims: refreshing and rebuilding the views *)

(** X4: a refresh of the view only writes the three text views, the
    cursor and the two labels, and takes the buffered device and log
    lines from the simulator: it calls nothing outside the dialog and
    leaves the timer, the scene, the preview, the buttons and the
    simulator's state of execution as they are. *)
Theorem update_view_only_refreshes (w : World) :
  let w' := exec update_view w in
  trace w' = trace w
  /\ clock w' = clock w
  /\ (simulator_scene (dlg w'), scene_manager (dlg w'),
      device_settings_tx_widget (dlg w'))
     = (simulator_scene (dlg w), scene_manager (dlg w),
        device_settings_tx_widget (dlg w))
  /\ (let u := ui (dlg w) in
      let u' := ui (dlg w') in
      (radioButtonTranscriptBit u', btnToggleLog u', btnLogAll u', btnLogNone u',
       btnStartStop u', tabWidgetSimulatorSettings u', checkBoxCaptureFullRX u',
       graphicsViewPreview u')
      = (radioButtonTranscriptBit u, btnToggleLog u, btnLogAll u, btnLogNone u,
         btnStartStop u, tabWidgetSimulatorSettings u, checkBoxCaptureFullRX u,
         graphicsViewPreview u))
  /\ (is_simulating (sim w'), current_repeat (sim w'), current_item (sim w'),
      transcript (sim w'), rcv_device (sim w'), sender (sim w'))
     = (is_simulating (sim w), current_repeat (sim w), current_item (sim w),
        transcript (sim w), rcv_device (sim w), sender (sim w)).
Proof.
  intros w'. subst w'. rewrite update_view_exec.
  destruct w as [[[] idx iv t sc sm tx] [run rep item trs dm lm rd sd] tr].
  repeat split.
Qed.

Lemma slice_from_beyond {A} (k : Z) (xs : list A) :
  len xs <= k -> slice_from k xs = [].
Proof.
  unfold slice_from, len. intros Hk.
  destruct (Z.ltb_spec k 0); [lia|]. apply skipn_all2. lia.
Qed.

(** X5: a refresh with the cursor at, or beyond, the end of the
    transcript appends no transcript line; so a second refresh in a row
    leaves the transcript view and the cursor as the first one left
    them. *)
Theorem update_view_twice (w : World) :
  (len (transcript (sim w)) <= current_transcript_index (dlg w) ->
   textEditTranscript (ui (dlg (exec update_view w)))
   = textEditTranscript (ui (dlg w)))
  /\ view_state (exec update_view (exec update_view w))
     = view_state (exec update_view w).
Proof.
  split.
  - intros Hk. pose proof (view_state_update_view w) as H.
    remember (exec update_view w) as w' eqn:E. clear E.
    unfold view_state in H. injection H as Hdoc _ _ _.
    now rewrite Hdoc, slice_from_beyond.
  - pose proof (view_state_update_view w) as H.
    remember (exec update_view w) as w' eqn:E. clear E.
    rewrite view_state_update_view.
    unfold view_state in *. injection H as Hdoc Hk Hbit Htr.
    rewrite slice_from_beyond by (rewrite Hk, Htr; lia).
    unfold append_all. cbn [map fold_left]. now rewrite Hk, Htr.
Qed.

Lemma update_view_twice_witness :
  let w := mkWorld (dlg Demo.world)
             (Demo.simulator true [Demo.entry0; Demo.entry1] []) [] in
  textEditTranscript (ui (dlg (exec update_view (exec update_view w))))
  = lit "0 (A->B): 10101010" ++ newline ++ lit "1 (B->A): 10111011".
Proof.
  intros w.
  destruct (update_view_twice (exec update_view w)) as [H _].
  rewrite H; [vm_compute; reflexivity|vm_compute; discriminate].
Defined.

Lemma update_transcript_view_exec (w : World) :
  exec update_transcript_view w
  = put_ui (with_textEditTranscript
              (QTextEdit.setText
                 (Spec.text_of_lines
                    (map (Spec.transcript_line
                            (radioButtonTranscriptBit (ui (dlg w))))
                       (transcript (sim w)))))
              (ui (dlg w))) w.
Proof. unfold exec. now rewrite update_transcript_view_run. Qed.

(** X6: a rebuild of the transcript view writes that view and nothing
    else; in particular it leaves the cursor where it is.  A rebuild
    therefore shows entries the refresh has not reached yet, and the next
    refresh appends them once more: after a click on a radio button and a
    refresh the view holds the whole transcript followed by the entries
    from the old cursor on. *)
Theorem rebuild_keeps_the_cursor (w : World) :
  let w1 := exec update_transcript_view w in
  let hex := exec (handle radioButtonTranscriptHex_clicked) w in
  (dlg w1, sim w1, trace w1)
  = (dlg (put_ui (ui (dlg w1)) w), sim w, trace w)
  /\ with_textEditTranscript (fun _ => textEditTranscript (ui (dlg w))) (ui (dlg w1))
     = ui (dlg w)
  /\ exec update_transcript_view w1 = w1
  /\ textEditTranscript (ui (dlg (exec update_view hex)))
     = Spec.text_of_lines
         (map (Spec.transcript_line false)
            (transcript (sim w)
             ++ slice_from (current_transcript_index (dlg w)) (transcript (sim w)))).
Proof.
  intros w1 hex. subst w1.
  split; [rewrite !update_transcript_view_exec;
          now destruct w as [[[] ? ? ? ? ? ?] ? ?]|].
  split; [rewrite !update_transcript_view_exec;
          now destruct w as [[[] ? ? ? ? ? ?] ? ?]|].
  split; [rewrite !update_transcript_view_exec;
          now destruct w as [[[] ? ? ? ? ? ?] ? ?]|].
  pose proof (handle_view_state radioButtonTranscriptHex_clicked w) as H.
  fold hex in H. clearbody hex. cbv beta iota in H.
  pose proof (view_state_update_view hex) as H'.
  remember (exec update_view hex) as w2 eqn:E. clear E.
  unfold view_state in H, H'. injection H as Hdoc Hk Hbit Htr.
  injection H' as Hdoc' _ _ _.
  rewrite Hdoc', Hdoc, Hk, Hbit, Htr. unfold append_all.
  rewrite append_lines by apply lines_nonempty. now rewrite map_app.
Qed.

(** The simulator has sent two messages and the timer has shown the
    first when the user clicks the hex button: the second line is then
    shown twice. *)
Example rebuild_between_refreshes :
  textEditTranscript
    (ui (dlg (run [simulator_ran (Demo.simulator true [Demo.entry0] []);
                   timer_timeout;
                   simulator_ran (Demo.simulator true [Demo.entry0; Demo.entry1] []);
                   radioButtonTranscriptHex_clicked;
                   timer_timeout]
                (exec on_simulation_started Demo.world))))
  = lit "0 (A->B): aa" ++ newline ++ lit "1 (B->A): bb"
    ++ newline ++ lit "1 (B->A): bb".
Proof. vm_compute. reflexivity. Qed.

(** ** Beyond the claims: saving *)



(** [open] refuses the file: the errno comes first among the arguments
    of the [OSError], and the slot raises instead of showing the error. *)
Example save_transcript_permission_denied :
  let e := {| exc_class := "PermissionError";
              exc_args := [py_int 13; py_str (lit "Permission denied")];
              exc_str := lit "[Errno 13] Permission denied: '/t.txt'" |} in
  on_btn_save_transcript_clicked (lit "/t.txt") (Some e) Demo.world
  = (Raised TypeError_text, Demo.world).
Proof. vm_compute. reflexivity. Qed.

(** ** Beyond the claims: the timer, the buttons and the devices *)

(** X9: a tick of the timer refreshes the view and then, if the refresh
    returned and the preview is enabled, moves the end of the preview to
    the receive device's [current_index] and redraws it with
    [init_scene], [show_full_scene] and [update], in this order.  With the
    preview disabled, or a refresh that raised, it calls nothing and
    leaves the scene manager alone. *)
Theorem timer_tick (w : World) :
  let w' := exec on_timer_timeout w in
  let redraw :=
    graphicsViewPreview (ui (dlg w))
    && match update_view_result w with Ok _ => true | Raised _ => false end in
  fst (on_timer_timeout w) = update_view_result w
  /\ refreshed w' = refreshed (exec update_view w)
  /\ calls on_timer_timeout w
     = (if redraw
        then [scene_manager_call "init_scene";
              scene_manager_call "show_full_scene";
              graphicsViewPreview_update]
        else [])
  /\ scene_manager (dlg w')
     = (if redraw
        then {| plot_data := plot_data (scene_manager (dlg w));
                data_array := data_array (scene_manager (dlg w));
                sm_end := current_index (rcv_device (sim w));
                sm_text_items := sm_text_items (scene_manager (dlg w)) |}
        else scene_manager (dlg w)).
Proof.
  intros w' redraw. subst w' redraw. rewrite update_view_exec.
  assert (E : on_timer_timeout w
              = match update_view_result w with
                | Ok _ => update_rx_graphics_view (update_view_world w)
                | Raised e => (Raised e, update_view_world w)
                end).
  { unfold on_timer_timeout. step. rewrite update_view_run.
    now destruct (update_view_result w). }
  unfold calls, exec. rewrite E. clear E.
  destruct w as [[[] idx iv t sc sm tx] [run rep item trs dm lm rd sd] tr].
  unfold update_view_result, update_rx_graphics_view, refreshed. cbn.
  destruct run; cbn; [destruct item; cbn|];
    destruct graphicsViewPreview0; cbn;
    rewrite ?skipn_all, ?app_nil_r;
    repeat split; try reflexivity;
    rewrite <- !app_assoc, skipn_app, skipn_all, Nat.sub_diag; reflexivity.
Qed.

(** X10: a click on the start button (the simulator not running) starts
    the receive device's [current_index] over at 0 and lets the device
    resume on a full buffer iff the capture checkbox is unchecked, before
    it calls [start()]; the buffer itself and the dialog are untouched.  A
    click on the stop button changes neither the simulator's fields nor
    the dialog. *)
Theorem start_click_resets_receive_index (w : World) :
  let w' := exec on_btn_start_stop_clicked w in
  fst (on_btn_start_stop_clicked w) = Ok tt
  /\ dlg w' = dlg w
  /\ (if is_simulating (sim w) then sim w' = sim w
      else rcv_device (sim w')
           = {| data := data (rcv_device (sim w));
                current_index := 0;
                resume_on_full_receive_buffer :=
                  negb (fst (checkBoxCaptureFullRX (ui (dlg w)))) |}
           /\ with_rcv_device (fun _ => rcv_device (sim w)) (sim w') = sim w).
Proof.
  intros w'. subst w'.
  destruct w as [[[] idx iv t sc sm tx] [run rep item trs dm lm rd sd] tr].
  unfold exec, on_btn_start_stop_clicked. cbn.
  destruct run; cbn; repeat split.
Qed.

(** X11: when the assignment of the new device name to the sender
    succeeds, the sender is the one the setter returned, the settings
    widget gets the sender's new device, the combo box keeps the selected
    name and no error is reported. *)
Theorem tx_device_change_success
  (set_name : pystr -> Sender -> result Sender) (w : World) (snd' : Sender) :
  set_name (cbDevice (device_settings_tx_widget (dlg w))) (sender (sim w))
  = Ok snd' ->
  let w' := exec (on_selected_tx_device_changed set_name) w in
  fst (on_selected_tx_device_changed set_name w) = Ok tt
  /\ sender (sim w') = snd'
  /\ widget_device (device_settings_tx_widget (dlg w')) = device snd'
  /\ cbDevice (device_settings_tx_widget (dlg w'))
     = cbDevice (device_settings_tx_widget (dlg w))
  /\ trace w' = trace w.
Proof.
  intros Hok w'. subst w'.
  unfold exec, on_selected_tx_device_changed.
  cbn [on_selected_tx_device_changed_nested].
  rewrite (@tx_device_changed_ok set_name _ w snd' Hok).
  destruct w as [[u idx iv t sc sm tx] s tr]. cbn. repeat split.
Qed.

Lemma tx_device_change_success_witness :
  let w := mkWorld (with_device_settings_tx_widget
                      (fun wd => {| cbDevice := lit "RTL-SDR";
                                    cbDevice_items := cbDevice_items wd;
                                    widget_device := widget_device wd |})
                      (dlg Demo.world))
             (sim Demo.world) [] in
  Demo.set_device_name (lit "RTL-SDR") (sender (sim w))
  = Ok {| device := {| name := lit "RTL-SDR" |} |}
  /\ device_name (sender (sim (exec (on_selected_tx_device_changed
                                       Demo.set_device_name) w)))
     = lit "RTL-SDR".
Proof.
  intros w. split; [reflexivity|].
  destruct (@tx_device_change_success Demo.set_device_name w
              {| device := {| name := lit "RTL-SDR" |} |} eq_refl)
    as (_ & H & _).
  unfold device_name. now rewrite H.
Defined.

(** X12: the receive buffer is cut as Python cuts it.  A [current_index]
    at or beyond the end of the buffer saves the whole buffer, 0 saves an
    empty array, and a negative one saves the buffer without its last
    [-current_index] samples.  Right after a click on the start button
    the saved capture is therefore empty. *)
Theorem save_rx_bounds (samples : list Sample) (c : N) (path : pystr) (w : World) :
  data (rcv_device (sim w)) = ndarray samples ->
  let k := current_index (rcv_device (sim w)) in
  let saved xs := calls (on_btn_save_rx_clicked (Some (c :: path))) w
                  = [ndarray_tofile xs (c :: path)] in
  (len samples <= k -> saved samples)
  /\ (k = 0 -> saved [])
  /\ (k < 0 -> saved (firstn (List.length samples - Z.to_nat (- k)) samples))
  /\ (is_simulating (sim w) = false ->
      calls (on_btn_save_rx_clicked (Some (c :: path)))
        (exec on_btn_start_stop_clicked w)
      = [ndarray_tofile [] (c :: path)]).
Proof.
  intros Hdata k saved. subst saved. cbv beta.
  rewrite !on_btn_save_rx_clicked_calls, Hdata. fold k.
  repeat split.
  - intros Hk. unfold slice_to. destruct (Z.ltb_spec k 0).
    + pose proof (len_nonneg samples). lia.
    + rewrite firstn_all2; [reflexivity|]. unfold len in Hk. lia.
  - intros ->. reflexivity.
  - intros Hk. unfold slice_to. destruct (Z.ltb_spec k 0); [|lia].
    do 3 f_equal. clearbody k. lia.
  - intros Hrun.
    destruct w as [[[] idx iv t sc sm tx] [run rep item trs dm lm rd sd] tr].
    cbn in Hrun, Hdata. subst run.
    unfold exec, on_btn_start_stop_clicked. cbn.
    destruct rd as [d ci r]. cbn in *. subst d. reflexivity.
Qed.

Lemma save_rx_bounds_witness :
  data (rcv_device (sim Demo.world))
  = ndarray [(1 # 2, 0 # 1); (1 # 4, 0 # 1); (0 # 1, 1 # 8)]
  /\ is_simulating (sim Demo.world) = false
  /\ calls (on_btn_save_rx_clicked (Some (lit "capture.complex")))
       (exec on_btn_start_stop_clicked Demo.world)
     = [ndarray_tofile [] (lit "capture.complex")].
Proof.
  split; [reflexivity|]. split; [reflexivity|].
  destruct (@save_rx_bounds [(1 # 2, 0 # 1); (1 # 4, 0 # 1); (0 # 1, 1 # 8)]
              (N_of_ascii "c") (lit "apture.complex") Demo.world eq_refl)
    as (_ & _ & _ & H).
  apply H. reflexivity.
Defined.

(** ** Beyond the claims: the log buttons *)

Lemma update_buttons_exec (w : World) :
  exec update_buttons w
  = put_ui
      (set_btnLogNone
         (existsb logging_active (selectable_items (simulator_scene (dlg w))))
         (set_btnLogAll
            (negb (forallb logging_active
                     (selectable_items (simulator_scene (dlg w)))))
            (set_btnToggleLog
               (negb (len (selectedItems (simulator_scene (dlg w))) =? 0))
               (ui (dlg w)))))
      w.
Proof. unfold exec. now rewrite update_buttons_run. Qed.

(** X13: [update_buttons] writes the three log buttons and nothing else,
    and doing it again changes nothing.  Without selectable items the
    log-all and the log-none button are both disabled; with selectable
    items at least one of the two is enabled, and both are iff the items
    differ in [logging_active]. *)
Theorem update_buttons_edges (w : World) :
  let items := selectable_items (simulator_scene (dlg w)) in
  let w' := exec update_buttons w in
  fst (update_buttons w) = Ok tt
  /\ button_state w' = buttons_of_scene (simulator_scene (dlg w))
  /\ exec update_buttons w' = w'
  /\ (sim w', trace w', clock w', refreshed w') = (sim w, trace w, clock w, refreshed w)
  /\ (items = [] ->
      btnLogAll (ui (dlg w')) = false /\ btnLogNone (ui (dlg w')) = false)
  /\ (items <> [] ->
      btnLogAll (ui (dlg w')) || btnLogNone (ui (dlg w')) = true)
  /\ (btnLogAll (ui (dlg w')) && btnLogNone (ui (dlg w')) = true <->
      exists a b, In a items /\ In b items
                  /\ logging_active a = false /\ logging_active b = true).
Proof.
  intros items w'. subst w'.
  split; [now rewrite update_buttons_run|].
  rewrite !update_buttons_exec.
  destruct w as [[[] idx iv t sc sm tx] s tr]. cbn in items.
  unfold button_state, buttons_of_scene, clock, refreshed. cbn. fold items.
  split; [reflexivity|]. split; [reflexivity|]. split; [reflexivity|].
  split; [now intros ->|]. split.
  - destruct items as [|a items']; [congruence|]. intros _. cbn.
    destruct (logging_active a); cbn; [apply orb_true_r|reflexivity].
  - rewrite andb_true_iff, negb_forallb_true, existsb_exists. split.
    + intros [[a [Ha Hfa]] [b [Hb Htb]]]. eauto 6.
    + intros (a & b & Ha & Hb & Hfa & Htb). split; eauto.
Qed.

(** What each slot does to the log buttons. *)
Lemma handle_button_state (e : Event) (w : World) :
  button_state (exec (handle e) w)
  = match e with
    | btnLogAll_clicked =>
        buttons_of_scene (log_all_items true (simulator_scene (dlg w)))
    | btnLogNone_clicked =>
        buttons_of_scene (log_all_items false (simulator_scene (dlg w)))
    | btnToggleLog_clicked =>
        buttons_of_scene (log_toggle_selected_items (simulator_scene (dlg w)))
    | selection_changed scene => buttons_of_scene scene
    | _ => button_state w
    end.
Proof.
  unfold exec.
  destruct e; cbn [handle].
  - destruct w as [[[] idx iv t sc sm tx] s tr].
    unfold on_simulation_started. cbn.
    destruct (data (rcv_device s)); reflexivity.
  - rewrite on_simulation_stopped_run. cbv zeta.
    destruct w as [[[] idx iv t sc sm tx] [run rep item trs dm lm rd sd] tr].
    unfold update_view_result. cbn.
    destruct run; cbn; [destruct item; cbn|]; reflexivity.
  - unfold on_timer_timeout.
    step. rewrite update_view_run.
    destruct w as [[[] idx iv t sc sm tx] [run rep item trs dm lm rd sd] tr].
    unfold update_view_result, update_rx_graphics_view. cbn.
    destruct run; cbn; [destruct item; cbn|];
      try reflexivity; destruct graphicsViewPreview0; reflexivity.
  - destruct w as [[[] idx iv t sc sm tx] s tr].
    unfold on_btn_start_stop_clicked. cbn.
    destruct (is_simulating s); reflexivity.
  - destruct w as [[[] idx iv t sc sm tx] s tr]. reflexivity.
  - destruct w as [[[] idx iv t sc sm tx] s tr]. reflexivity.
  - destruct w as [[[] idx iv t sc sm tx] s tr]. reflexivity.
  - unfold on_radio_button_transcript_bit_clicked.
    step. cbn [modify_ui modify_dlg modify].
    rewrite update_transcript_view_run.
    destruct w as [[[] idx iv t sc sm tx] s tr]. reflexivity.
  - unfold on_radio_button_transcript_hex_clicked.
    step. cbn [modify_ui modify_dlg modify].
    rewrite update_transcript_view_run.
    destruct w as [[[] idx iv t sc sm tx] s tr]. reflexivity.
  - destruct w as [[[] idx iv t sc sm tx] s tr].
    unfold on_btn_save_transcript_clicked.
    destruct file_path; [reflexivity|].
    destruct io_error as [[cls [|[] args] str]|]; reflexivity.
  - destruct w as [[[] idx iv t sc sm tx] s tr].
    unfold on_btn_save_rx_clicked. cbn.
    destruct (data (rcv_device s)); [|reflexivity].
    destruct filename as [[|]|]; reflexivity.
  - destruct w as [[[] idx iv t sc sm tx] s tr]. reflexivity.
  - destruct w as [[[] idx iv t sc sm tx] s tr]. reflexivity.
  - destruct w as [[[] idx iv t sc sm tx] s0 tr]. reflexivity.
Qed.

Lemma SimulatorDialog_init_button_state ui0 scene tx_widget default_view s :
  button_state (SimulatorDialog_init ui0 scene tx_widget default_view s)
  = buttons_of_scene scene.
Proof.
  destruct ui0. unfold SimulatorDialog_init, exec, update_buttons. cbn.
  destruct (default_view =? 1); reflexivity.
Qed.

(** X14: from [__init__] on and after every event, the three log buttons
    are as [update_buttons] sets them for the scene as it stands: the
    slots that change the selection or the logging flags end in
    [update_buttons] (through [selectionChanged] and [items_updated]) and
    no other slot touches the buttons or the scene. *)
Theorem log_buttons_follow_scene ui0 scene tx_widget default_view s
  (events : list Event) :
  let w := run events (SimulatorDialog_init ui0 scene tx_widget default_view s) in
  button_state w = buttons_of_scene (simulator_scene (dlg w)).
Proof.
  intros w. subst w.
  pose proof (SimulatorDialog_init_button_state ui0 scene tx_widget default_view s)
    as H0.
  remember (SimulatorDialog_init ui0 scene tx_widget default_view s) as w0 eqn:E.
  clear E.
  assert (Inv0 : button_state w0 = buttons_of_scene (simulator_scene (dlg w0))).
  { rewrite H0. unfold button_state in H0. injection H0 as _ _ _ Hsc.
    now rewrite Hsc. }
  clear H0. revert w0 Inv0.
  induction events as [|e events IH]; intros w0 Inv0; [exact Inv0|].
  cbn [run fold_left]. apply IH.
  pose proof (handle_button_state e w0) as H.
  remember (exec (handle e) w0) as w1 eqn:E. clear E.
  assert (Hsc : forall sc, button_state w1 = buttons_of_scene sc ->
                           button_state w1 = buttons_of_scene (simulator_scene (dlg w1))).
  { intros sc Hb. rewrite Hb. unfold button_state in Hb.
    injection Hb as _ _ _ Hs. now rewrite Hs. }
  destruct e; try (now apply (Hsc _ H)); rewrite H in *;
    rewrite Inv0; unfold button_state in H; injection H as _ _ _ Hs;
    now rewrite Hs.
Qed.

(** ** Beyond the claims: the calls of the dialog *)

(** The trace only grows, by the calls of the event's slot. *)
Lemma handle_trace (e : Event) (w : World) :
  trace (exec (handle e) w) = trace w ++ event_calls e w.
Proof.
  unfold exec.
  destruct e; cbn [handle event_calls].
  - rewrite on_simulation_started_run. cbn. now rewrite app_nil_r.
  - rewrite on_simulation_stopped_run. cbv zeta.
    destruct w as [[[] idx iv t sc sm tx] [run rep item trs dm lm rd sd] tr].
    unfold update_view_result. cbn.
    destruct run; cbn; [destruct item; cbn|]; now rewrite app_nil_r.
  - unfold on_timer_timeout.
    step. rewrite update_view_run.
    destruct w as [[[] idx iv t sc sm tx] [run rep item trs dm lm rd sd] tr].
    unfold update_view_result, update_rx_graphics_view. cbn.
    destruct run; cbn; [destruct item; cbn|];
      destruct graphicsViewPreview0; cbn;
      rewrite <- ?app_assoc, ?app_nil_r; reflexivity.
  - destruct w as [[[] idx iv t sc sm tx] s tr].
    unfold on_btn_start_stop_clicked. cbn.
    destruct (is_simulating s); cbn; now rewrite <- ?app_assoc.
  - destruct w as [[[] idx iv t sc sm tx] s tr]. cbn. now rewrite app_nil_r.
  - destruct w as [[[] idx iv t sc sm tx] s tr]. cbn. now rewrite app_nil_r.
  - destruct w as [[[] idx iv t sc sm tx] s tr]. cbn. now rewrite app_nil_r.
  - unfold on_radio_button_transcript_bit_clicked.
    step. cbn [modify_ui modify_dlg modify].
    rewrite update_transcript_view_run.
    destruct w as [[[] idx iv t sc sm tx] s tr]. cbn. now rewrite app_nil_r.
  - unfold on_radio_button_transcript_hex_clicked.
    step. cbn [modify_ui modify_dlg modify].
    rewrite update_transcript_view_run.
    destruct w as [[[] idx iv t sc sm tx] s tr]. cbn. now rewrite app_nil_r.
  - destruct w as [[[] idx iv t sc sm tx] s tr].
    unfold on_btn_save_transcript_clicked.
    destruct file_path; cbn; [now rewrite app_nil_r|].
    destruct io_error as [[cls [|[txt|num|] args] str]|]; cbn;
      now rewrite ?app_nil_r.
  - destruct w as [[[] idx iv t sc sm tx] s tr].
    unfold on_btn_save_rx_clicked. cbn.
    destruct (data (rcv_device s)); cbn; [|now rewrite app_nil_r].
    destruct filename as [[|]|]; cbn; now rewrite ?app_nil_r.
  - destruct w as [[[] idx iv t sc sm tx] s tr]. cbn. now rewrite app_nil_r.
  - now rewrite closeEvent_calls.
  - destruct w as [[[] idx iv t sc sm tx] s0 tr]. cbn. now rewrite app_nil_r.
Qed.

Lemma cleanup_guarded_app (seen : nat) (xs ys : list Call) :
  cleanup_guarded seen (xs ++ ys)
  = cleanup_guarded seen xs && cleanup_guarded (seen_through seen xs) ys.
Proof.
  revert seen. induction xs as [|c xs IH]; intros seen; [reflexivity|].
  cbn. destruct (is_cleanup c).
  - now rewrite IH, andb_assoc.
  - apply IH.
Qed.

Lemma event_calls_guarded (seen : nat) (e : Event) (w : World) :
  cleanup_guarded seen (event_calls e w) = true.
Proof.
  destruct e; cbn; try reflexivity.
  - now destruct (_ && _).
  - now destruct (is_simulating (sim w)).
  - destruct file_path; [reflexivity|].
    now destruct io_error as [[cls [|[txt|num|] args] str]|].
  - destruct (data (rcv_device (sim w))); [|reflexivity].
    now destruct filename as [[|]|].
Qed.

Lemma event_calls_cleanup (e : Event) (w : World) :
  In Simulator_cleanup (event_calls e w) -> e = close_event.
Proof.
  destruct e; cbn; try tauto; try reflexivity.
  - destruct (_ && _); cbn; intuition discriminate.
  - destruct (is_simulating (sim w)); cbn; intuition discriminate.
  - destruct file_path; [cbn; tauto|].
    destruct io_error as [[cls [|[txt|num|] args] str]|]; cbn;
      intuition discriminate.
  - destruct (data (rcv_device (sim w))); [|cbn; tauto].
    destruct filename as [[|]|]; cbn; intuition discriminate.
Qed.

Lemma event_calls_starts (e : Event) (w : World) :
  List.length (filter is_start (event_calls e w))
  = match e with
    | btnStartStop_clicked => if is_simulating (sim w) then 0%nat else 1%nat
    | _ => 0%nat
    end.
Proof.
  destruct e; cbn; try reflexivity.
  - now destruct (_ && _).
  - now destruct (is_simulating (sim w)).
  - destruct file_path; [reflexivity|].
    now destruct io_error as [[cls [|[txt|num|] args] str]|].
  - destruct (data (rcv_device (sim w))); [|reflexivity].
    now destruct filename as [[|]|].
Qed.

Lemma run_trace_safe (events : list Event) (w : World) :
  (cleanup_guarded 0 (trace w) = true ->
   cleanup_guarded 0 (trace (run events w)) = true)
  /\ (In Simulator_cleanup (trace (run events w)) ->
      In Simulator_cleanup (trace w) \/ In close_event events)
  /\ List.length (filter is_start (trace (run events w)))
     = (List.length (filter is_start (trace w)) + start_clicks events w)%nat.
Proof.
  revert w. induction events as [|e events IH]; intros w.
  - cbn. repeat split; auto.
  - cbn [run fold_left start_clicks]. fold (run events (exec (handle e) w)).
    pose proof (handle_trace e w) as Ht.
    pose proof (event_calls_starts e w) as Hs.
    destruct (IH (exec (handle e) w)) as (IH1 & IH2 & IH3).
    remember (exec (handle e) w) as w1 eqn:E. clear E.
    rewrite Ht in IH1, IH2, IH3. split; [|split].
    + intros Hg. apply IH1. rewrite cleanup_guarded_app, Hg.
      apply event_calls_guarded.
    + intros Hin. destruct (IH2 Hin) as [H|H]; [|now right; right].
      apply in_app_or in H. destruct H as [H|H]; [now left|].
      right. left. eapply event_calls_cleanup. exact H.
    + rewrite IH3, filter_app, length_app, Hs. lia.
Qed.

Lemma SimulatorDialog_init_trace ui0 scene tx_widget default_view s :
  trace (SimulatorDialog_init ui0 scene tx_widget default_view s) = [].
Proof.
  destruct ui0. unfold SimulatorDialog_init, exec, update_buttons. cbn.
  destruct (default_view =? 1); reflexivity.
Qed.

(** X15: whatever events reach a new dialog, every [cleanup()] it calls
    on the simulator comes directly after a [stop()] and a sleep of
    0.1 s, and only the close event leads to one; and [start()] is called
    exactly once for every click on the start/stop button that finds the
    simulator not running, and by nothing else. *)
Theorem simulator_calls_of_a_run ui0 scene tx_widget default_view s
  (events : list Event) :
  let w0 := SimulatorDialog_init ui0 scene tx_widget default_view s in
  let calls_made := trace (run events w0) in
  cleanup_guarded 0 calls_made = true
  /\ (In Simulator_cleanup calls_made -> In close_event events)
  /\ List.length (filter is_start calls_made) = start_clicks events w0.
Proof.
  intros w0 calls_made. subst calls_made.
  pose proof (SimulatorDialog_init_trace ui0 scene tx_widget default_view s) as H0.
  fold w0 in H0. clearbody w0.
  destruct (run_trace_safe events w0) as (H1 & H2 & H3).
  rewrite H0 in H1, H2, H3. split; [|split].
  - now apply H1.
  - intros Hin. destruct (H2 Hin) as [[]|H]. exact H.
  - exact H3.
Qed.

(** The guard is not vacuous: it refuses a [cleanup()] without the sleep
    and one without the [stop()]. *)
Example cleanup_guarded_refuses :
  cleanup_guarded 0 [Simulator_stop; Simulator_cleanup] = false
  /\ cleanup_guarded 0 [time_sleep (1 # 10); Simulator_cleanup] = false
  /\ cleanup_guarded 0 [Simulator_stop; time_sleep (1 # 5); Simulator_cleanup] = false
  /\ cleanup_guarded 0 [Simulator_stop; time_sleep (1 # 10); Simulator_cleanup] = true.
Proof. repeat split. Qed.

(** ** Beyond the claims: the first view and a failing refresh *)

Lemma SimulatorDialog_init_view_state ui0 scene tx_widget default_view s :
  view_state (SimulatorDialog_init ui0 scene tx_widget default_view s)
  = (textEditTranscript ui0, 0,
     if default_view =? 1 then false else radioButtonTranscriptBit ui0,
     transcript s).
Proof.
  destruct ui0. unfold SimulatorDialog_init, exec, update_buttons. cbn.
  destruct (default_view =? 1); reflexivity.
Qed.

Lemma view_state_update_view_interleaved (th : Simulator -> Simulator)
    (w : World) :
  view_state (exec (update_view_interleaved th) w)
  = (append_all
       (map (Spec.transcript_line (radioButtonTranscriptBit (ui (dlg w))))
          (slice_from (current_transcript_index (dlg w)) (transcript (sim w))))
       (textEditTranscript (ui (dlg w))),
     len (transcript (th (drained (sim w)))),
     radioButtonTranscriptBit (ui (dlg w)),
     transcript (th (drained (sim w)))).
Proof. unfold exec. rewrite update_view_interleaved_run. reflexivity. Qed.

(** X16: the setting [default_view] decides the rendering of a new
    dialog: with the value 1 the bit radio button is unchecked, with any
    other value it stays as the form has it.  The first refresh of the
    new dialog, whatever the simulator's thread does meanwhile, leaves the
    radio button as it is and appends the lines of the transcript it
    finds in that rendering, hex for the value 1. *)
Theorem default_view_decides_rendering ui0 scene tx_widget default_view s
  (simulator_thread : Simulator -> Simulator) :
  let w0 := SimulatorDialog_init ui0 scene tx_widget default_view s in
  let bit := if default_view =? 1 then false else radioButtonTranscriptBit ui0 in
  let w := exec (update_view_interleaved simulator_thread) w0 in
  radioButtonTranscriptBit (ui (dlg w0)) = bit
  /\ radioButtonTranscriptBit (ui (dlg w)) = bit
  /\ textEditTranscript (ui (dlg w))
     = append_all (map (Spec.transcript_line bit) (transcript s))
         (textEditTranscript ui0).
Proof.
  intros w0 bit w.
  pose proof (SimulatorDialog_init_view_state ui0 scene tx_widget default_view s)
    as H0.
  pose proof (view_state_update_view_interleaved simulator_thread w0) as H1.
  fold w0 bit in H0. fold w in H1. clearbody w w0.
  unfold view_state in H0, H1.
  injection H0 as Hdoc Hk Hbit Htr.
  injection H1 as Hdoc1 _ Hbit1 _.
  rewrite Hdoc, Hk, Hbit, Htr in Hdoc1. rewrite Hbit in Hbit1.
  auto.
Qed.

Example default_view_hex :
  textEditTranscript
    (ui (dlg (exec update_view
                (SimulatorDialog_init Demo.widgets Demo.scene
                   (Demo.tx_widget (lit "USRP")) 1
                   (Demo.simulator true [Demo.entry0; Demo.entry1] [])))))
  = lit "0 (A->B): aa" ++ newline ++ lit "1 (B->A): bb".
Proof. vm_compute. reflexivity. Qed.

(** X17: a refresh while the simulator reports [is_simulating] but has
    no current item raises [AttributeError] at the very end: the lines
    are appended, the cursor is at the length of the transcript and the
    repeat label is set as in a refresh that returns; only the item label
    keeps its old text.  No transcript entry is lost or shown twice by
    the failure. *)
Theorem update_view_without_current_item (w : World) :
  is_simulating (sim w) = true ->
  current_item (sim w) = None ->
  let w' := exec update_view w in
  fst (update_view w) = Raised AttributeError_index
  /\ view_state w'
     = (append_all
          (map (Spec.transcript_line (radioButtonTranscriptBit (ui (dlg w))))
             (slice_from (current_transcript_index (dlg w)) (transcript (sim w))))
          (textEditTranscript (ui (dlg w))),
        len (transcript (sim w)),
        radioButtonTranscriptBit (ui (dlg w)),
        transcript (sim w))
  /\ lblCurrentRepeatValue (ui (dlg w')) = str_int (current_repeat (sim w) + 1)
  /\ lblCurrentItemValue (ui (dlg w')) = lblCurrentItemValue (ui (dlg w)).
Proof.
  intros Hrun Hitem w'. subst w'.
  rewrite view_state_update_view, update_view_exec, update_view_run.
  unfold update_view_result, update_view_world, update_view_ui. cbn.
  rewrite Hrun, Hitem. auto.
Qed.

Lemma update_view_without_current_item_witness :
  let s := {| is_simulating := true; current_repeat := 2; current_item := None;
              transcript := [Demo.entry0]; device_message_buffer := [];
              log_messages := []; rcv_device := Demo.rx;
              sender := {| device := Demo.usrp |} |} in
  let w := mkWorld (dlg Demo.world) s [] in
  fst (update_view w) = Raised AttributeError_index
  /\ lblCurrentRepeatValue (ui (dlg (exec update_view w))) = lit "3"
  /\ lblCurrentItemValue (ui (dlg (exec update_view w))) = lit "-".
Proof.
  intros s w.
  destruct (@update_view_without_current_item w eq_refl eq_refl)
    as (H1 & _ & H3 & H4).
  split; [exact H1|]. split; [exact H3|exact H4].
Defined.

(** ** Beyond the claims: refreshes and the simulator's thread *)

(** X18: when the simulator's thread leaves the transcript alone while
    a refresh runs, every entry is shown exactly once.  The start of a
    run empties the view and resets the cursor; over steps in which the
    simulator only appends to its transcript, no refresh is disturbed, no
    second run starts and no radio button is clicked, the view shows
    exactly the entries before the cursor, each on its line; one more
    [update_view] makes it show the whole transcript. *)
Theorem undisturbed_refreshes_show_each_entry_once (w0 : World)
    (steps : list Step) :
  let bit := radioButtonTranscriptBit (ui (dlg w0)) in
  let w1 := exec on_simulation_started w0 in
  let w := run_steps steps w1 in
  forallb step_leaves_view_to_update_view steps = true ->
  append_only_steps steps w1 ->
  refreshes_undisturbed steps w1 ->
  (textEditTranscript (ui (dlg w1)) = [] /\ current_transcript_index (dlg w1) = 0)
  /\ shows_entries_before_cursor bit w
  /\ view_state (exec update_view w)
     = (Spec.text_of_lines
          (map (Spec.transcript_line bit) (transcript (sim w))),
        len (transcript (sim w)), bit, transcript (sim w)).
Proof.
  intros bit w1 w Hall Happ Hq. subst w.
  assert (H1 : view_state w1 = ([], 0, bit, transcript (sim w0)))
    by apply on_simulation_started_view_state.
  clearbody w1.
  assert (Inv1 : shows_entries_before_cursor bit w1).
  { eapply shows_entries_of_view_state; [exact H1| |reflexivity].
    pose proof (len_nonneg (transcript (sim w0))). lia. }
  unfold view_state in H1. injection H1 as Hdoc Hk _ _.
  pose proof (shows_entries_undisturbed_run steps Inv1 Hall Happ Hq) as Inv.
  split; [auto|]. split; [exact Inv|now apply update_view_completes].
Qed.

Lemma undisturbed_refreshes_show_each_entry_once_witness :
  let steps :=
    [ slot (simulator_ran (Demo.simulator true [Demo.entry0] []));
      timer_timeout_during (fun s => s);
      slot (simulator_ran (Demo.simulator true [Demo.entry0; Demo.entry1] []));
      timer_timeout_during (Simulator_append []);
      slot simulation_stopped ] in
  let w1 := exec on_simulation_started Demo.world in
  append_only_steps steps w1
  /\ refreshes_undisturbed steps w1
  /\ textEditTranscript (ui (dlg (run_steps steps w1)))
     = lit "0 (A->B): 10101010" ++ newline ++ lit "1 (B->A): 10111011".
Proof.
  intros steps w1.
  assert (Hall : forallb step_leaves_view_to_update_view steps = true)
    by reflexivity.
  assert (Happ : append_only_steps steps w1).
  { vm_compute. repeat split; try (eexists; reflexivity). }
  assert (Hq : refreshes_undisturbed steps w1).
  { vm_compute. repeat split. }
  split; [exact Happ|]. split; [exact Hq|].
  destruct (undisturbed_refreshes_show_each_entry_once Demo.world steps
              Hall Happ Hq) as (_ & (_ & _ & Hdoc) & _).
  fold w1 in Hdoc. rewrite Hdoc. vm_compute. reflexivity.
Defined.

(** X19: whatever the simulator's thread appends while the refreshes
    run, no entry is shown twice and the order is kept.  Over steps in
    which the simulator only appends to its transcript, no second run
    starts and no radio button is clicked, the lines of the view are
    those of entries from before the cursor, in the order of the
    transcript, each of them at most once. *)
Theorem racing_refreshes_show_no_entry_twice (w0 : World) (steps : list Step) :
  let bit := radioButtonTranscriptBit (ui (dlg w0)) in
  let w1 := exec on_simulation_started w0 in
  forallb step_leaves_view_to_update_view steps = true ->
  append_only_steps steps w1 ->
  shows_entries_once bit (run_steps steps w1).
Proof.
  intros bit w1 Hall Happ.
  assert (H1 : view_state w1 = ([], 0, bit, transcript (sim w0)))
    by apply on_simulation_started_view_state.
  clearbody w1.
  apply shows_entries_once_run; auto.
  apply shows_entries_before_cursor_once.
  eapply shows_entries_of_view_state; [exact H1| |reflexivity].
  pose proof (len_nonneg (transcript (sim w0))). lia.
Qed.

Lemma racing_refreshes_show_no_entry_twice_witness :
  let steps :=
    [ slot (simulator_ran (Demo.simulator true [Demo.entry0] []));
      timer_timeout_during (Simulator_append [Demo.entry1]);
      slot timer_timeout ] in
  let w1 := exec on_simulation_started Demo.world in
  append_only_steps steps w1
  /\ shows_entries_once true (run_steps steps w1).
Proof.
  intros steps w1.
  assert (Happ : append_only_steps steps w1).
  { vm_compute. repeat split; try (eexists; reflexivity). }
  split; [exact Happ|].
  exact (@racing_refreshes_show_no_entry_twice Demo.world steps eq_refl Happ).
Defined.

(** ** Beyond the claims: a device the combo box does not list *)

(** X20: when the assignment of the new device name raises and the name
    of the sender's device is no entry of the combo box, the box cannot
    be set back: it keeps the new selection.  The slot still returns, the
    error is reported once, and the dialog and the simulator are as they
    were. *)
Theorem tx_device_change_failure_unlisted
  (set_name : pystr -> Sender -> result Sender) (w : World) (e : exn) :
  set_name (cbDevice (device_settings_tx_widget (dlg w))) (sender (sim w))
  = Raised e ->
  ~ In (device_name (sender (sim w)))
      (cbDevice_items (device_settings_tx_widget (dlg w))) ->
  on_selected_tx_device_changed set_name w
  = (Ok tt,
     mkWorld (dlg w) (sim w)
       (trace w ++ [Errors_generic_error (lit "Error occurred") (exc_str e)])).
Proof.
  intros Hraise Hout.
  unfold on_selected_tx_device_changed.
  cbn [on_selected_tx_device_changed_nested].
  rewrite (@tx_device_changed_raised set_name _ w e Hraise). cbv zeta.
  destruct w as [[u idx iv t sc sm tx] s tr].
  unfold with_device_settings_tx_widget.
  cbn [dlg sim trace device_settings_tx_widget
       ui current_transcript_index update_interval timer simulator_scene
       scene_manager] in *.
  assert (Hsame : cbDevice_setCurrentText (device_name (sender s)) tx = tx).
  { unfold cbDevice_setCurrentText.
    destruct (in_dec pystr_eq_dec _ _); [contradiction|reflexivity]. }
  rewrite Hsame.
  destruct (pystr_eq_dec (cbDevice tx) (cbDevice tx)); [reflexivity|congruence].
Qed.

Lemma tx_device_change_failure_unlisted_witness :
  let s := Build_Simulator false 0 None [] [] [] Demo.rx
             {| device := {| name := lit "BladeRF" |} |} in
  let w := mkWorld (dlg Demo.world) s [] in
  ~ In (lit "BladeRF") (cbDevice_items (device_settings_tx_widget (dlg w)))
  /\ cbDevice (device_settings_tx_widget
                 (dlg (exec (on_selected_tx_device_changed Demo.set_device_name)
                         w)))
     = lit "HackRF".
Proof.
  intros s w.
  assert (Hout : ~ In (lit "BladeRF")
                     (cbDevice_items (device_settings_tx_widget (dlg w)))).
  { intros [H|[H|[H|[]]]]; discriminate H. }
  split; [exact Hout|].
  unfold exec.
  rewrite (@tx_device_change_failure_unlisted Demo.set_device_name w
             {| exc_class := "Exception";
                exc_args := [py_str (lit "device not found")];
                exc_str := lit "device not found" |} eq_refl Hout).
  reflexivity.
Defined.
